(** * Study Coach tools (src/app/agent.py): a shallow embedding

    The three tools [get_module_outline], [build_study_schedule] and
    [suggest_practice_tasks] are modelled as pure functions returning tagged
    outcomes in place of the rendered text; the text of the two tools that
    print no floats is modelled as well.  The tool log, [run_study_coach]
    and the UI entry points of src/app/ui.py ([load_agent],
    [study_coach_interface]) are modelled by explicit state passing, with
    the LLM-driven agent given as the tool calls it makes and its outcome.

    Modelling choices:
    - Python [float] hours are modelled by exact rationals [Q]; Python's
      [round(x, 1)] is modelled by round-half-to-even to one decimal
      ([round1]).
    - Python [str] is modelled by [string] (ASCII); [str.lower] lowers
      'A'..'Z' and [str.strip] removes the ASCII characters for which
      [str.isspace] holds.
    - Python [int] ([days_until_exam]) is [Z]. *)

From Stdlib Require Import List String Ascii Bool ZArith QArith Qround Lia Lqa.
From Stdlib Require Import Sorting.Sorted.
Import ListNotations.
Open Scope string_scope.

(* ------------------------------------------------------------------ *)
(** ** Python string helpers *)

Definition ascii_lower (c : ascii) : ascii :=
  let n := nat_of_ascii c in
  if (65 <=? n)%nat && (n <=? 90)%nat then ascii_of_nat (n + 32) else c.

(** [str.lower] *)
Fixpoint lower (s : string) : string :=
  match s with
  | EmptyString => EmptyString
  | String c s' => String (ascii_lower c) (lower s')
  end.

(** ASCII characters with [str.isspace]: \t \n \v \f \r, \x1c-\x1f, space. *)
Definition is_space (c : ascii) : bool :=
  let n := nat_of_ascii c in
  ((9 <=? n)%nat && (n <=? 13)%nat) || ((28 <=? n)%nat && (n <=? 32)%nat).

Fixpoint drop_spaces (l : list ascii) : list ascii :=
  match l with
  | [] => []
  | c :: l' => if is_space c then drop_spaces l' else l
  end.

(** [str.strip()] *)
Definition strip (s : string) : string :=
  string_of_list_ascii
    (rev (drop_spaces (rev (drop_spaces (list_ascii_of_string s))))).

(** [str.split(",")]: always at least one piece. *)
Fixpoint split_comma_aux (l : list ascii) (cur : list ascii)
  : list (list ascii) :=
  match l with
  | [] => [rev cur]
  | c :: l' =>
      if Ascii.eqb c ","%char then rev cur :: split_comma_aux l' []
      else split_comma_aux l' (c :: cur)
  end.

Definition split_comma (s : string) : list string :=
  map string_of_list_ascii (split_comma_aux (list_ascii_of_string s) []).

Definition is_empty_string (s : string) : bool :=
  match s with EmptyString => true | _ => false end.

(** [[w.strip().lower() for w in s.split(",") if w.strip()]] *)
Definition parse_list (s : string) : list string :=
  map (fun w => lower (strip w))
      (filter (fun w => negb (is_empty_string (strip w))) (split_comma s)).

(** [needle in hay] for Python strings. *)
Fixpoint contains (needle hay : string) : bool :=
  prefix needle hay ||
  match hay with
  | EmptyString => false
  | String _ hay' => contains needle hay'
  end.

(* ------------------------------------------------------------------ *)
(** ** Syllabus and practice-task data *)

Definition generative_ai_topics : list string :=
  [ "LLM fundamentals";
    "Prompt engineering";
    "OpenAI & Groq APIs";
    "LangChain basics";
    "Agents and Tools";
    "RAG";
    "Agent security & guardrails" ].

Definition SYLLABUS : list (string * list string) :=
  [ ("generative ai", generative_ai_topics) ].

Definition PRACTICE_TASKS : list (string * list string) :=
  [ ("LLM fundamentals",
      [ "Explain in your own words what an LLM is and how it is trained.";
        "Compare two LLM architectures and list their pros/cons." ]);
    ("Prompt engineering",
      [ "Write prompts in zero-shot, few-shot and chain-of-thought styles.";
        "Rewrite a vague prompt into a precise, constrained one." ]);
    ("LangChain basics",
      [ "Build a simple LangChain LLMChain using a PromptTemplate.";
        "Create a LangChain chain that calls two steps in sequence." ]);
    ("Agents and Tools",
      [ "Create a ReAct agent that uses at least two tools.";
        "Implement a custom LangChain tool and expose it to an agent." ]);
    ("RAG",
      [ "Implement a basic RAG pipeline using a single PDF.";
        "Experiment with different chunk sizes and compare answer quality." ]);
    ("Agent security & guardrails",
      [ "Design a simple prompt-based safety policy for your agent.";
        "Add checks to block obviously unsafe or irrelevant queries." ]) ].

(** [dict.get(key)] on a string-keyed dict. *)
Fixpoint dict_get {A} (d : list (string * A)) (key : string) : option A :=
  match d with
  | [] => None
  | (k, v) :: d' => if String.eqb key k then Some v else dict_get d' key
  end.

(** [SYLLABUS.get(module_name.lower().strip())] *)
Definition syllabus_lookup (module_name : string) : option (list string) :=
  dict_get SYLLABUS (strip (lower module_name)).

(** [PRACTICE_TASKS.get(topic, [])] *)
Definition practice_tasks_get (topic : string) : list string :=
  match dict_get PRACTICE_TASKS topic with
  | Some ts => ts
  | None => []
  end.

(* ------------------------------------------------------------------ *)
(** ** Tool [get_module_outline] *)

Inductive outline_result :=
| OutlineOk (module_name : string) (topics : list string)
| OutlineNotFound (module_name : string).

Definition get_module_outline (module_name : string) : outline_result :=
  match syllabus_lookup module_name with
  | None | Some [] => OutlineNotFound module_name       (* if not topics *)
  | Some topics => OutlineOk module_name topics
  end.

(* ------------------------------------------------------------------ *)
(** ** Tool [build_study_schedule] *)

Definition qlt (a b : Q) : bool := negb (Qle_bool b a).

(** Python [round(x, 1)]: round half to even at one decimal. *)
Definition round1 (x : Q) : Q :=
  let y := x * 10 in
  let f := Qfloor y in
  let d := y - inject_Z f in
  let k := if qlt d (1#2) then f
           else if qlt (1#2) d then (f + 1)%Z
           else if Z.even f then f else (f + 1)%Z in
  Qmake k 10.

(** Python [min(remaining, hours_per_day / 2)]: the first argument unless
    the second is strictly smaller. *)
Definition py_min (a b : Q) : Q := if qlt b a then b else a.

Definition entry : Type := (string * Q)%type.

(** [schedule = {day: [] for day in range(1, days_until_exam + 1)}] *)
Definition schedule_t : Type := list (Z * list entry).

Definition init_schedule (days_until_exam : Z) : schedule_t :=
  map (fun i => (Z.of_nat i, [])) (seq 1 (Z.to_nat days_until_exam)).

(** [schedule[day]]; the loop only reads keys [1 <= day <= days_until_exam],
    which are present. *)
Fixpoint sched_get (s : schedule_t) (day : Z) : list entry :=
  match s with
  | [] => []
  | (d, es) :: s' => if Z.eqb day d then es else sched_get s' day
  end.

(** [schedule[day].append(e)] *)
Definition sched_append (s : schedule_t) (day : Z) (e : entry) : schedule_t :=
  map (fun '(d, es) => if Z.eqb day d then (d, (es ++ [e])%list) else (d, es)) s.

(** [sum(h for _, h in items)] *)
Definition sum_hours (es : list entry) : Q :=
  fold_right (fun e acc => snd e + acc) 0 es.

(** Body of the inner [while remaining > 0 and day <= days_until_exam] loop,
    run for at most [fuel] iterations; returns [(schedule, day, remaining)]. *)
Fixpoint pack_topic (fuel : nat) (topic : string) (days_until_exam : Z)
    (hours_per_day : Q) (remaining : Q) (schedule : schedule_t) (day : Z)
    : schedule_t * Z * Q :=
  match fuel with
  | O => (schedule, day, remaining)
  | S fuel' =>
      if qlt 0 remaining && (day <=? days_until_exam)%Z then
        let chunk := py_min remaining (hours_per_day / 2) in
        let schedule1 := sched_append schedule day (topic, round1 chunk) in
        let remaining1 := remaining - chunk in
        let day_load := sum_hours (sched_get schedule1 day) in
        let day1 := if Qle_bool (hours_per_day * (9#10)) day_load
                    then (day + 1)%Z else day in
        pack_topic fuel' topic days_until_exam hours_per_day remaining1
                   schedule1 day1
      else (schedule, day, remaining)
  end.

(** Iteration budget of the inner loop for a topic of [hours] hours: every
    iteration but the last subtracts [hours_per_day / 2]. *)
Definition topic_fuel (hours_per_day hours : Q) : nat :=
  S (Z.to_nat (Qceiling (2 * hours / hours_per_day))).

(** [for topic, hours in zip(topics, hours_per_topic): ...] *)
Fixpoint pack_all (days_until_exam : Z) (hours_per_day : Q)
    (items : list (string * Q)) (schedule : schedule_t) (day : Z)
    : schedule_t * Z :=
  match items with
  | [] => (schedule, day)
  | (topic, hours) :: rest =>
      let '(schedule1, day1, _) :=
        pack_topic (topic_fuel hours_per_day hours) topic days_until_exam
                   hours_per_day hours schedule day in
      pack_all days_until_exam hours_per_day rest schedule1 day1
  end.

(** [2 if any(w in t.lower() for w in weak_list) else 1] *)
Definition weight_of (weak_list : list string) (t : string) : Z :=
  if existsb (fun w => contains w (lower t)) weak_list then 2 else 1.

Definition weights_of (weak_list : list string) (topics : list string)
  : list Z :=
  map (weight_of weak_list) topics.

Definition sum_Z (l : list Z) : Z := fold_right Z.add 0%Z l.

(** [[(w / total_weight) * total_hours for w in weights]] *)
Definition hours_per_topic (weights : list Z) (total_hours : Q) : list Q :=
  let total_weight := sum_Z weights in
  map (fun w => (inject_Z w / inject_Z total_weight) * total_hours) weights.

(** [zip(topics, hours_per_topic)] for a request. *)
Definition topic_hours (topics : list string) (weak_topics : string)
    (days_until_exam : Z) (hours_per_day : Q) : list (string * Q) :=
  let weights := weights_of (parse_list weak_topics) topics in
  combine topics
    (hours_per_topic weights (inject_Z days_until_exam * hours_per_day)).

Inductive schedule_result :=
| ScheduleOk (module_name : string) (per_day : list (Z * list entry))
| ScheduleNotFound (module_name : string)
| ScheduleUnbuildable.

(** The days printed by the formatter ([if not items: continue]). *)
Definition nonempty_days (s : schedule_t) : schedule_t :=
  filter (fun '(_, items) => negb (match items with [] => true | _ => false end)) s.

(** [len(lines)]: four header lines, then ["Day d:"], one line per item and
    a blank line for every non-empty day. *)
Definition rendered_line_count (s : schedule_t) : nat :=
  4 + fold_right (fun '(_, items) acc => 2 + List.length items + acc)%nat 0%nat
        (nonempty_days s).

Definition render_schedule (module_name : string) (s : schedule_t)
  : schedule_result :=
  if (4 <? rendered_line_count s)%nat then ScheduleOk module_name (nonempty_days s)
  else ScheduleUnbuildable.

Definition build_study_schedule (module_name : string) (days_until_exam : Z)
    (hours_per_day : Q) (weak_topics : string) : schedule_result :=
  match syllabus_lookup module_name with
  | None | Some [] => ScheduleNotFound module_name
  | Some topics =>
      let items := topic_hours topics weak_topics days_until_exam hours_per_day in
      let '(schedule, _) :=
        pack_all days_until_exam hours_per_day items
                 (init_schedule days_until_exam) 1%Z in
      render_schedule module_name schedule
  end.

(* ------------------------------------------------------------------ *)
(** ** Tool [suggest_practice_tasks] *)

Inductive tasks_result :=
| TasksOk (per_topic : list (string * list string))
| TasksNotFound (module_name : string)
| TasksNoMatches.

(** Body of [for topic in topics]: the printed [(topic, tasks)] blocks. *)
Fixpoint collect_tasks (focus_list : list string) (topics : list string)
  : list (string * list string) :=
  match topics with
  | [] => []
  | topic :: rest =>
      if negb (match focus_list with [] => true | _ => false end) &&
         negb (existsb (fun f => contains f (lower topic)) focus_list)
      then collect_tasks focus_list rest                      (* continue *)
      else
        match practice_tasks_get topic with
        | [] => collect_tasks focus_list rest                 (* continue *)
        | tasks => (topic, tasks) :: collect_tasks focus_list rest
        end
  end.

(** [len(lines)]: the header, then per topic ["* topic"], its tasks and a
    blank line. *)
Definition tasks_line_count (blocks : list (string * list string)) : nat :=
  1 + fold_right (fun '(_, ts) acc => 2 + List.length ts + acc)%nat 0%nat blocks.

Definition suggest_practice_tasks (module_name : string) (focus_topics : string)
  : tasks_result :=
  match syllabus_lookup module_name with
  | None | Some [] => TasksNotFound module_name
  | Some topics =>
      let blocks := collect_tasks (parse_list focus_topics) topics in
      if (tasks_line_count blocks =? 1)%nat then TasksNoMatches
      else TasksOk blocks
  end.

(* ------------------------------------------------------------------ *)
(** ** Text rendering of the string-only tools *)

Definition newline : ascii := "010"%char.

(** ["\n".join(lines)] *)
Fixpoint join_lines (lines : list string) : string :=
  match lines with
  | [] => ""
  | [l] => l
  | l :: ls => l ++ String newline (join_lines ls)
  end.

(** [text.split("\n")], the way a reader of a tool's output takes it apart. *)
Fixpoint split_lines_aux (l : list ascii) (cur : list ascii)
  : list (list ascii) :=
  match l with
  | [] => [rev cur]
  | c :: l' =>
      if Ascii.eqb c newline then rev cur :: split_lines_aux l' []
      else split_lines_aux l' (c :: cur)
  end.

Definition split_lines (s : string) : list string :=
  map string_of_list_ascii (split_lines_aux (list_ascii_of_string s) []).

(** The string returned by [get_module_outline]. *)
Definition get_module_outline_text (module_name : string) : string :=
  match syllabus_lookup module_name with
  | None | Some [] => "No module named '" ++ module_name ++ "' found."
  | Some topics =>
      join_lines (("Topics for " ++ module_name ++ ":")
                  :: map (fun t => "- " ++ t) topics)
  end.



(* ------------------------------------------------------------------ *)
(** ** The tool log *)

(** Values of the keyword arguments passed to [log_tool]. *)
Inductive arg_value :=
| ArgStr (s : string)
| ArgInt (z : Z)
| ArgFloat (q : Q).

(** [{"tool": name, "input": kwargs}] *)
Record log_entry := mk_log_entry {
  tool : string;
  input : list (string * arg_value)
}.

(** [TOOL_LOG.append({"tool": name, "input": kwargs})] on the global log. *)
Definition log_tool (TOOL_LOG : list log_entry) (name : string)
    (kwargs : list (string * arg_value)) : list log_entry :=
  (TOOL_LOG ++ [mk_log_entry name kwargs])%list.

(** A call of one of the three tools, as the agent issues it. *)
Inductive tool_call :=
| CallGetModuleOutline (module_name : string)
| CallBuildStudySchedule (module_name : string) (days_until_exam : Z)
    (hours_per_day : Q) (weak_topics : string)
| CallSuggestPracticeTasks (module_name : string) (focus_topics : string).

Inductive tool_output :=
| OutOutline (r : outline_result)
| OutSchedule (r : schedule_result)
| OutTasks (r : tasks_result).

(** A tool body: [log_tool(...)] first, then the lookup and the result. *)
Definition run_tool (TOOL_LOG : list log_entry) (c : tool_call)
  : list log_entry * tool_output :=
  match c with
  | CallGetModuleOutline m =>
      (log_tool TOOL_LOG "get_module_outline" [("module_name", ArgStr m)],
       OutOutline (get_module_outline m))
  | CallBuildStudySchedule m d h w =>
      (log_tool TOOL_LOG "build_study_schedule"
         [("module_name", ArgStr m); ("days_until_exam", ArgInt d);
          ("hours_per_day", ArgFloat h); ("weak_topics", ArgStr w)],
       OutSchedule (build_study_schedule m d h w))
  | CallSuggestPracticeTasks m f =>
      (log_tool TOOL_LOG "suggest_practice_tasks"
         [("module_name", ArgStr m); ("focus_topics", ArgStr f)],
       OutTasks (suggest_practice_tasks m f))
  end.

(** The log after a sequence of tool calls. *)
Fixpoint run_tools (TOOL_LOG : list log_entry) (calls : list tool_call)
  : list log_entry :=
  match calls with
  | [] => TOOL_LOG
  | c :: cs => run_tools (fst (run_tool TOOL_LOG c)) cs
  end.

(* ------------------------------------------------------------------ *)
(** ** The agent runner and the UI *)

(** Python exceptions that reach [study_coach_interface]; [str(e)] is the
    message. *)
Inductive exn :=
| RuntimeError (msg : string)
| IndexError (msg : string)
| AgentError (msg : string).

Definition str_exn (e : exn) : string :=
  match e with RuntimeError m | IndexError m | AgentError m => m end.

Inductive result (A : Type) :=
| Ok (a : A)
| Raise (e : exn).
Arguments Ok {A} a.
Arguments Raise {A} e.

(** What [agent.invoke] does: the LLM and LangChain are outside this
    program, so a run on a query is given by the tool calls it makes, in
    order, and how it ends: the contents of [result["messages"]], or an
    exception. *)
Inductive invoke_outcome :=
| InvokeReturns (messages : list string)
| InvokeRaises (e : exn).

Definition behaviour : Type := string -> list tool_call * invoke_outcome.

Record agent_config := mk_agent_config {
  model : string;
  temperature : Q;
  tools : list string
}.

Record agent_t := mk_agent {
  config : agent_config;
  invoke : behaviour
}.

(** [not os.getenv("GROQ_API_KEY")]: unset or empty. *)
Definition key_missing (env_key : option string) : bool :=
  match env_key with
  | None => true
  | Some s => is_empty_string s
  end.

(** [build_agent()]; [llm] is the behaviour of the LLM-driven agent. *)
Definition build_agent (llm : behaviour) (env_key : option string)
  : result agent_t :=
  if key_missing env_key then
    Raise (RuntimeError
      "GROQ_API_KEY environment variable is not set. Set it before using the agent.")
  else
    Ok (mk_agent
          (mk_agent_config "llama-3.1-8b-instant" (3#10)
             ["get_module_outline"; "build_study_schedule";
              "suggest_practice_tasks"])
          llm).

(** The tool-log box: plain text, or the lines
    [f"{i}. {entry['tool']} → {entry['input']}"] after the header
    ["Tool call sequence:"], kept as the pairs [(i, entry)] they print. *)
Inductive log_text :=
| LogPlain (text : string)
| LogSequence (lines : list (nat * log_entry)).

Definition tool_log_text (TOOL_LOG : list log_entry) : log_text :=
  match TOOL_LOG with
  | [] => LogPlain "No tools were called."
  | _ => LogSequence (combine (seq 1 (List.length TOOL_LOG)) TOOL_LOG)
  end.

(** [run_study_coach(agent, query)] on the global log: returns the new log
    and [(final_answer, tool_log_text)], or the exception raised. *)
Definition run_study_coach (agent : agent_t) (query : string)
    (TOOL_LOG : list log_entry)
  : list log_entry * result (string * log_text) :=
  let cleared : list log_entry := [] in                   (* TOOL_LOG.clear() *)
  let '(calls, outcome) := invoke agent query in
  let log1 := run_tools cleared calls in
  match outcome with
  | InvokeRaises e => (log1, Raise e)
  | InvokeReturns messages =>
      match rev messages with
      | [] => (log1, Raise (IndexError "list index out of range"))
      | final_answer :: _ => (log1, Ok (final_answer, tool_log_text log1))
      end
  end.

(** Module state of [ui.py] and [agent.py]: the cached agent and TOOL_LOG. *)
Record ui_state := mk_ui_state {
  agent : option agent_t;
  TOOL_LOG : list log_entry
}.

Definition ui_key_message : string :=
  "GROQ_API_KEY environment variable is not set." ++ String newline
  (("Please set it before running the UI:" ++ String newline
    "   export GROQ_API_KEY='your-key-here'")).

(** [load_agent()] in [ui.py]. *)
Definition load_agent (llm : behaviour) (env_key : option string)
    (agent : option agent_t) : option agent_t * result agent_t :=
  match agent with
  | Some a => (Some a, Ok a)
  | None =>
      if key_missing env_key then (None, Raise (RuntimeError ui_key_message))
      else match build_agent llm env_key with
           | Ok a => (Some a, Ok a)
           | Raise e => (None, Raise e)
           end
  end.

Definition error_prefix : string := "❌ Error: ".

(** [study_coach_interface(query)]: never raises. *)
Definition study_coach_interface (llm : behaviour) (env_key : option string)
    (st : ui_state) (query : string) : ui_state * (string * log_text) :=
  let '(agent1, r) := load_agent llm env_key (agent st) in
  match r with
  | Raise e =>
      (mk_ui_state agent1 (TOOL_LOG st), (error_prefix ++ str_exn e, LogPlain ""))
  | Ok a =>
      let '(log1, r1) := run_study_coach a query (TOOL_LOG st) in
      match r1 with
      | Ok out => (mk_ui_state agent1 log1, out)
      | Raise e => (mk_ui_state agent1 log1, (error_prefix ++ str_exn e, LogPlain ""))
      end
  end.

(** [str.strip()] on the character list. *)
Definition strip_l (l : list ascii) : list ascii :=
  rev (drop_spaces (rev (drop_spaces l))).

(* ================================================================== *)
(** * Basic facts *)

Lemma qlt_spec (a b : Q) : qlt a b = true <-> a < b.
Proof.
  unfold qlt. destruct (Qle_bool b a) eqn:E; simpl; split; intros H.
  - discriminate.
  - apply Qle_bool_iff in E. exfalso. apply (Qlt_not_le a b); assumption.
  - apply Qnot_le_lt. intros Hle. apply Qle_bool_iff in Hle. congruence.
  - reflexivity.
Qed.

Lemma qlt_false (a b : Q) : qlt a b = false <-> b <= a.
Proof.
  unfold qlt. destruct (Qle_bool b a) eqn:E; simpl; split; intros H.
  - apply Qle_bool_iff; assumption.
  - reflexivity.
  - discriminate.
  - apply Qle_bool_iff in H. congruence.
Qed.

Lemma Qmake_10 (k : Z) : Qmake k 10 == inject_Z k * (1#10).
Proof. unfold Qeq; simpl. lia. Qed.

(** [round(x, 1)] is within half a unit of the first decimal of [x]. *)
Lemma round1_bounds (x : Q) : x - (1#20) <= round1 x /\ round1 x <= x + (1#20).
Proof.
  unfold round1.
  assert (Hf1 : inject_Z (Qfloor (x * 10)) <= x * 10) by apply Qfloor_le.
  assert (Hf2 : x * 10 < inject_Z (Qfloor (x * 10) + 1)) by apply Qlt_floor.
  assert (Hp : forall z, inject_Z (z + 1) == inject_Z z + 1)
    by (intros z; rewrite inject_Z_plus; reflexivity).
  rewrite Hp in Hf2.
  assert (Hk : forall k : Z,
             x * 10 - (1#2) <= inject_Z k -> inject_Z k <= x * 10 + (1#2) ->
             x - (1#20) <= Qmake k 10 /\ Qmake k 10 <= x + (1#20)).
  { intros k H1 H2. rewrite Qmake_10. split; lra. }
  set (f := Qfloor (x * 10)) in *.
  destruct (qlt (x * 10 - inject_Z f) (1#2)) eqn:E1.
  { apply qlt_spec in E1. apply Hk; lra. }
  apply qlt_false in E1.
  destruct (qlt (1#2) (x * 10 - inject_Z f)) eqn:E2.
  { apply qlt_spec in E2. apply Hk; rewrite Hp; lra. }
  apply qlt_false in E2.
  destruct (Z.even f).
  - apply Hk; lra.
  - apply Hk; rewrite Hp; lra.
Qed.

Lemma py_min_le_r (a b : Q) : py_min a b <= b.
Proof.
  unfold py_min. destruct (qlt b a) eqn:E.
  - apply Qle_refl.
  - apply qlt_false in E. assumption.
Qed.

Lemma py_min_le_l (a b : Q) : py_min a b <= a.
Proof.
  unfold py_min. destruct (qlt b a) eqn:E.
  - apply qlt_spec in E. lra.
  - apply Qle_refl.
Qed.

(** The only module of the catalog. *)
Lemma syllabus_lookup_some (module_name : string) (topics : list string) :
  syllabus_lookup module_name = Some topics -> topics = generative_ai_topics.
Proof.
  unfold syllabus_lookup, SYLLABUS; simpl.
  destruct (String.eqb _ _); intros H; inversion H; reflexivity.
Qed.

Lemma syllabus_lookup_none (module_name : string) :
  ~ In (strip (lower module_name)) (map fst SYLLABUS) ->
  syllabus_lookup module_name = None.
Proof.
  unfold syllabus_lookup, SYLLABUS; simpl.
  destruct (String.eqb _ _) eqn:E; [|reflexivity].
  apply String.eqb_eq in E. intros H. exfalso. apply H. left. symmetry. exact E.
Qed.

(* ------------------------------------------------------------------ *)
(** ** The inner packing loop *)

Lemma pack_topic_guard_false (fuel : nat) topic days h r s day :
  (qlt 0 r && (day <=? days)%Z) = false ->
  pack_topic fuel topic days h r s day = (s, day, r).
Proof. destruct fuel; simpl; intros H; [reflexivity|]. rewrite H. reflexivity. Qed.

(** Once the guard is false, more fuel changes nothing. *)
Lemma pack_topic_more_fuel (n m : nat) topic days h r s day s' day' r' :
  pack_topic n topic days h r s day = (s', day', r') ->
  (qlt 0 r' && (day' <=? days)%Z) = false ->
  pack_topic (n + m) topic days h r s day = (s', day', r').
Proof.
  revert r s day. induction n as [|n IH]; intros r s day E G; simpl in *.
  - inversion E; subst. apply pack_topic_guard_false. exact G.
  - destruct (qlt 0 r && (day <=? days)%Z).
    + apply IH; assumption.
    + exact E.
Qed.

Lemma pack_topic_day_mono (fuel : nat) topic days h r s day :
  match pack_topic fuel topic days h r s day with
  | (_, day', _) =>
      (day <= day')%Z /\ ((day <= days + 1)%Z -> (day' <= days + 1)%Z)
  end.
Proof.
  revert r s day. induction fuel as [|fuel IH]; intros r s day; simpl; [lia|].
  destruct (qlt 0 r && (day <=? days)%Z) eqn:G; [|lia].
  apply andb_true_iff in G as [_ G]. apply Z.leb_le in G.
  match goal with
  | |- context [pack_topic fuel topic days h ?r1 ?s1 ?d1] =>
      specialize (IH r1 s1 d1);
      destruct (pack_topic fuel topic days h r1 s1 d1) as [[s' d'] r']
  end.
  destruct (Qle_bool _ _); lia.
Qed.

Lemma ceiling_pos (x : Q) : 0 < x -> (1 <= Qceiling x)%Z.
Proof.
  intros Hx. pose proof (Qle_ceiling x) as H.
  destruct (Z_le_gt_dec 1 (Qceiling x)) as [|Hlt]; [assumption|].
  exfalso. assert (Hc : (Qceiling x <= 0)%Z) by lia.
  rewrite Zle_Qle in Hc. change (inject_Z 0) with 0 in Hc. lra.
Qed.

(** With the budget [topic_fuel], the loop always ends with its guard false. *)
Lemma pack_topic_exits (fuel : nat) topic days h r s day :
  0 < h -> (topic_fuel h r <= fuel)%nat ->
  match pack_topic fuel topic days h r s day with
  | (_, day', r') => (qlt 0 r' && (day' <=? days)%Z) = false
  end.
Proof.
  intros Hh. revert r s day. induction fuel as [|fuel IH]; intros r s day Hf.
  { unfold topic_fuel in Hf. lia. }
  simpl. destruct (qlt 0 r && (day <=? days)%Z) eqn:G; [|exact G].
  apply andb_true_iff in G as [Gr _]. apply qlt_spec in Gr.
  unfold py_min. destruct (qlt (h / 2) r) eqn:Hm.
  - (* a half-day chunk: the measure drops by one *)
    apply qlt_spec in Hm. apply IH. unfold topic_fuel in *.
    setoid_replace (h / 2) with (h * (1#2)) in Hm by field.
    assert (Hq : 2 * (r - h / 2) / h == 2 * r / h - 1) by (field; lra).
    rewrite Hq.
    assert (H1 : 1 < 2 * r / h).
    { apply Qlt_shift_div_l; [exact Hh|]. lra. }
    assert (H2 : (Qceiling (2 * r / h - 1) <= Qceiling (2 * r / h) - 1)%Z).
    { rewrite <- (Qceiling_Z (Qceiling (2 * r / h) - 1)).
      apply Qceiling_resp_le. unfold Z.sub. rewrite inject_Z_plus, inject_Z_opp.
      pose proof (Qle_ceiling (2 * r / h)). change (inject_Z 1) with 1. lra. }
    pose proof (ceiling_pos (2 * r / h - 1)) as H3.
    assert (H4 : 0 < 2 * r / h - 1) by lra.
    specialize (H3 H4). lia.
  - (* the last chunk empties [remaining] *)
    match goal with
    | |- context [pack_topic fuel topic days h (r - r) ?s1 ?d1] =>
        rewrite (pack_topic_guard_false fuel topic days h (r - r) s1 d1)
    end.
    + apply andb_false_iff. left. apply qlt_false. lra.
    + apply andb_false_iff. left. apply qlt_false. lra.
Qed.

(* ------------------------------------------------------------------ *)
(** ** Invariants on the entries of a schedule *)

Lemma sched_append_In (s : schedule_t) (day d : Z) (e : entry) (es : list entry) :
  In (d, es) (sched_append s day e) ->
  exists es0, In (d, es0) s /\ (es = es0 \/ es = (es0 ++ [e])%list).
Proof.
  unfold sched_append. intros H. apply in_map_iff in H as [[d0 es0] [Heq Hin]].
  destruct (Z.eqb day d0); inversion Heq; subst; eauto.
Qed.

Definition entries_ok (P : entry -> Prop) (s : schedule_t) : Prop :=
  forall d es e, In (d, es) s -> In e es -> P e.

Lemma entries_ok_append (P : entry -> Prop) s day e :
  entries_ok P s -> P e -> entries_ok P (sched_append s day e).
Proof.
  intros Hs He d es x Hin Hx.
  apply sched_append_In in Hin as [es0 [Hin [-> | ->]]].
  - eapply Hs; eauto.
  - apply in_app_or in Hx as [Hx | [<- | []]]; [eapply Hs; eauto | exact He].
Qed.

Lemma pack_topic_entries_ok (P : entry -> Prop) fuel topic days h r s day :
  (forall x, P (topic, round1 (py_min x (h / 2)))) -> entries_ok P s ->
  entries_ok P (fst (fst (pack_topic fuel topic days h r s day))).
Proof.
  revert r s day. induction fuel as [|fuel IH]; intros r s day HP Hs; simpl;
    [exact Hs|].
  destruct (qlt 0 r && (day <=? days)%Z); simpl; [|exact Hs].
  apply IH; [exact HP|]. apply entries_ok_append; auto.
Qed.

Lemma pack_all_entries_ok (P : entry -> Prop) days h items s day :
  (forall t x, P (t, round1 (py_min x (h / 2)))) -> entries_ok P s ->
  entries_ok P (fst (pack_all days h items s day)).
Proof.
  revert s day. induction items as [|[t x] rest IH]; intros s day HP Hs;
    cbn [pack_all]; [exact Hs|].
  pose proof (pack_topic_entries_ok P (topic_fuel h x) t days h x s day
                (HP t) Hs) as H.
  destruct (pack_topic _ _ _ _ _ _ _) as [[s1 d1] r1].
  apply IH; assumption.
Qed.

Lemma entries_ok_init (P : entry -> Prop) days : entries_ok P (init_schedule days).
Proof.
  intros d es e Hin He. unfold init_schedule in Hin.
  apply in_map_iff in Hin as [i [Heq _]]. inversion Heq; subst. destruct He.
Qed.

Lemma entries_ok_nonempty (P : entry -> Prop) s :
  entries_ok P s -> entries_ok P (nonempty_days s).
Proof.
  intros Hs d es e Hin He. unfold nonempty_days in Hin.
  apply filter_In in Hin as [Hin _]. eapply Hs; eauto.
Qed.

(** Shape of a successful [build_study_schedule]. *)
Lemma build_study_schedule_ok_inv m days h weak m' per_day :
  build_study_schedule m days h weak = ScheduleOk m' per_day ->
  exists items,
    per_day = nonempty_days (fst (pack_all days h items (init_schedule days) 1%Z)).
Proof.
  unfold build_study_schedule.
  destruct (syllabus_lookup m) as [[|t ts]|]; try discriminate.
  set (items := topic_hours _ _ _ _).
  destruct (pack_all days h items (init_schedule days) 1%Z) as [s d] eqn:E.
  unfold render_schedule. destruct (4 <? _)%nat; intros H; inversion H; subst.
  exists items. rewrite E. reflexivity.
Qed.

(* ------------------------------------------------------------------ *)
(** ** Day 1 always receives an entry *)

Definition day1_filled (s : schedule_t) : Prop :=
  exists es, In (1%Z, es) s /\ es <> [].

Lemma sched_append_keeps (s : schedule_t) (day d : Z) (e : entry) (es : list entry) :
  In (d, es) s ->
  exists es', In (d, es') (sched_append s day e) /\
              (es' = es \/ es' = (es ++ [e])%list).
Proof.
  intros Hin. unfold sched_append.
  destruct (Z.eqb day d) eqn:E.
  - exists (es ++ [e])%list. split; [|right; reflexivity].
    apply in_map_iff. exists (d, es). rewrite E. split; [reflexivity | exact Hin].
  - exists es. split; [|left; reflexivity].
    apply in_map_iff. exists (d, es). rewrite E. split; [reflexivity | exact Hin].
Qed.

Lemma day1_filled_append s day e : day1_filled s -> day1_filled (sched_append s day e).
Proof.
  intros [es [Hin Hne]].
  destruct (sched_append_keeps s day 1%Z e es Hin) as [es' [Hin' [-> | ->]]].
  - exists es. auto.
  - exists (es ++ [e])%list. split; [exact Hin'|].
    intros H. apply app_eq_nil in H as [_ H]. discriminate.
Qed.

Lemma pack_topic_day1_filled fuel topic days h r s day :
  day1_filled s -> day1_filled (fst (fst (pack_topic fuel topic days h r s day))).
Proof.
  revert r s day. induction fuel as [|fuel IH]; intros r s day Hs; simpl; [exact Hs|].
  destruct (qlt 0 r && (day <=? days)%Z); simpl; [|exact Hs].
  apply IH. apply day1_filled_append. exact Hs.
Qed.

Lemma pack_all_day1_filled days h items s day :
  day1_filled s -> day1_filled (fst (pack_all days h items s day)).
Proof.
  revert s day. induction items as [|[t x] rest IH]; intros s day Hs;
    cbn [pack_all]; [exact Hs|].
  pose proof (pack_topic_day1_filled (topic_fuel h x) t days h x s day Hs) as H.
  destruct (pack_topic _ _ _ _ _ _ _) as [[s1 d1] r1].
  apply IH. exact H.
Qed.

Lemma init_schedule_day1 days : (1 <= days)%Z -> In (1%Z, []) (init_schedule days).
Proof.
  intros Hd. unfold init_schedule. apply in_map_iff. exists 1%nat.
  split; [reflexivity|]. apply in_seq. lia.
Qed.

(** The first topic, with positive hours, fills day 1. *)
Lemma pack_all_first_topic days h t x rest :
  (1 <= days)%Z -> 0 < x ->
  day1_filled (fst (pack_all days h ((t, x) :: rest) (init_schedule days) 1%Z)).
Proof.
  intros Hd Hx. cbn [pack_all]. unfold topic_fuel. cbn [pack_topic].
  assert (G : (qlt 0 x && (1 <=? days)%Z) = true).
  { apply andb_true_iff. split; [apply qlt_spec; exact Hx | apply Z.leb_le; exact Hd]. }
  rewrite G.
  match goal with
  | |- context [pack_topic ?f t days h ?r1 ?s1 ?d1] =>
      pose proof (pack_topic_day1_filled f t days h r1 s1 d1) as H;
      destruct (pack_topic f t days h r1 s1 d1) as [[s2 d2] r2]
  end.
  apply pack_all_day1_filled. apply H.
  exists [(t, round1 (py_min x (h / 2)))]. split; [|discriminate].
  unfold sched_append. apply in_map_iff. exists (1%Z, []).
  split; [reflexivity | apply init_schedule_day1; exact Hd].
Qed.

Lemma render_day1_filled m s :
  day1_filled s ->
  exists es, render_schedule m s = ScheduleOk m (nonempty_days s) /\
             In (1%Z, es) (nonempty_days s) /\ es <> [].
Proof.
  intros [es [Hin Hne]].
  assert (Hin' : In (1%Z, es) (nonempty_days s)).
  { unfold nonempty_days. apply filter_In. split; [exact Hin|].
    destruct es; [contradiction | reflexivity]. }
  exists es. split; [|split; assumption].
  unfold render_schedule, rendered_line_count.
  destruct (nonempty_days s) as [|[d0 es0] l]; [destruct Hin'|].
  simpl. reflexivity.
Qed.

Lemma weight_of_ge_1 wl t : (1 <= weight_of wl t)%Z.
Proof. unfold weight_of. destruct (existsb _ _); lia. Qed.

Lemma sum_weights_ge_length wl (topics : list string) :
  (Z.of_nat (List.length topics) <= sum_Z (weights_of wl topics))%Z.
Proof.
  induction topics as [|t ts IH]; simpl; [lia|].
  pose proof (weight_of_ge_1 wl t). unfold sum_Z in *. lia.
Qed.

Lemma topic_hours_cons t ts weak days h :
  topic_hours (t :: ts) weak days h =
  (t, inject_Z (weight_of (parse_list weak) t)
      / inject_Z (sum_Z (weights_of (parse_list weak) (t :: ts)))
      * (inject_Z days * h))
  :: combine ts (map (fun w => inject_Z w
                      / inject_Z (sum_Z (weights_of (parse_list weak) (t :: ts)))
                      * (inject_Z days * h))
                     (weights_of (parse_list weak) ts)).
Proof. reflexivity. Qed.

Lemma first_hours_pos t ts weak days h :
  (1 <= days)%Z -> 0 < h ->
  0 < inject_Z (weight_of (parse_list weak) t)
      / inject_Z (sum_Z (weights_of (parse_list weak) (t :: ts)))
      * (inject_Z days * h).
Proof.
  intros Hd Hh.
  pose proof (weight_of_ge_1 (parse_list weak) t) as Hw.
  pose proof (sum_weights_ge_length (parse_list weak) (t :: ts)) as HW.
  simpl List.length in HW.
  apply Qmult_lt_0_compat.
  - apply Qlt_shift_div_l.
    + change 0 with (inject_Z 0). rewrite <- Zlt_Qlt. lia.
    + rewrite Qmult_0_l. change 0 with (inject_Z 0). rewrite <- Zlt_Qlt. lia.
  - apply Qmult_lt_0_compat; [|exact Hh].
    change 0 with (inject_Z 0). rewrite <- Zlt_Qlt. lia.
Qed.

Lemma build_study_schedule_known m days h weak topics :
  syllabus_lookup m = Some topics -> topics <> [] ->
  build_study_schedule m days h weak =
  render_schedule m
    (fst (pack_all days h (topic_hours topics weak days h) (init_schedule days) 1%Z)).
Proof.
  intros Hl Hne. unfold build_study_schedule. rewrite Hl.
  destruct topics as [|t ts]; [contradiction|].
  destruct (pack_all _ _ _ _ _). reflexivity.
Qed.

(* ------------------------------------------------------------------ *)
(** ** Hours placed in a schedule *)

(** Sum of the hours of every entry of every day. *)
Definition sched_total (s : schedule_t) : Q :=
  fold_right (fun '(_, es) acc => sum_hours es + acc) 0 s.

(** Number of entries over all days. *)
Definition sched_count (s : schedule_t) : nat :=
  fold_right (fun '(_, es) acc => List.length es + acc)%nat 0%nat s.

(** Rounding slack: 0.05 hour per entry. *)
Definition slack (s : schedule_t) : Q :=
  inject_Z (Z.of_nat (sched_count s)) * (1#20).

Lemma sum_hours_app es e : sum_hours (es ++ [e])%list == sum_hours es + snd e.
Proof.
  induction es as [|e0 es IH]; simpl; [ring|].
  unfold sum_hours in *. simpl. rewrite IH. ring.
Qed.

Lemma sched_append_keys s day e : map fst (sched_append s day e) = map fst s.
Proof.
  induction s as [|[d es] s IH]; simpl; [reflexivity|].
  destruct (Z.eqb day d); simpl; rewrite IH; reflexivity.
Qed.

Lemma sched_append_absent s day e : ~ In day (map fst s) -> sched_append s day e = s.
Proof.
  induction s as [|[d es] s IH]; intros H; simpl; [reflexivity|].
  destruct (Z.eqb day d) eqn:E.
  - apply Z.eqb_eq in E. subst. exfalso. apply H. left. reflexivity.
  - f_equal. apply IH. intros Hin. apply H. right. exact Hin.
Qed.

Lemma sched_append_total s day e :
  NoDup (map fst s) -> In day (map fst s) ->
  sched_total (sched_append s day e) == sched_total s + snd e /\
  sched_count (sched_append s day e) = S (sched_count s).
Proof.
  induction s as [|[d es] s IH]; intros Hnd Hin; [destruct Hin|].
  simpl in Hnd, Hin. inversion Hnd as [|x l Hnotin Hnd']; subst.
  simpl. destruct (Z.eqb day d) eqn:E.
  - apply Z.eqb_eq in E. subst.
    fold (sched_append s d e). rewrite (sched_append_absent s d e Hnotin).
    split; [rewrite sum_hours_app; ring | rewrite length_app; simpl; lia].
  - destruct Hin as [Hd | Hin]; [subst; rewrite Z.eqb_refl in E; discriminate|].
    fold (sched_append s day e).
    destruct (IH Hnd' Hin) as [H1 H2]. unfold sched_total, sched_count in *.
    split; [rewrite H1; ring | rewrite H2; lia].
Qed.

Lemma slack_S s s' :
  sched_count s' = S (sched_count s) -> slack s' == slack s + (1#20).
Proof.
  intros H. unfold slack. rewrite H, Nat2Z.inj_succ.
  unfold Z.succ. rewrite inject_Z_plus. ring.
Qed.

(** One topic: [sched_total - slack + remaining] never increases. *)
Lemma pack_topic_total fuel topic days h r s day :
  NoDup (map fst s) ->
  (forall d, (1 <= d <= days)%Z -> In d (map fst s)) ->
  (1 <= day)%Z -> 0 <= r ->
  match pack_topic fuel topic days h r s day with
  | (s', _, r') =>
      map fst s' = map fst s /\ 0 <= r' /\
      sched_total s' - slack s' + r' <= sched_total s - slack s + r
  end.
Proof.
  revert r s day. induction fuel as [|fuel IH]; intros r s day Hnd Hcov Hday Hr;
    simpl; [repeat split; [assumption | apply Qle_refl]|].
  destruct (qlt 0 r && (day <=? days)%Z) eqn:G;
    [|repeat split; [assumption | apply Qle_refl]].
  apply andb_true_iff in G as [_ G]. apply Z.leb_le in G.
  set (c := py_min r (h / 2)).
  set (s1 := sched_append s day (topic, round1 c)).
  assert (Hk : map fst s1 = map fst s) by apply sched_append_keys.
  destruct (sched_append_total s day (topic, round1 c) Hnd (Hcov day (conj Hday G)))
    as [Ht Hc].
  fold s1 in Ht, Hc.
  pose proof (slack_S s s1 Hc) as Hsl.
  pose proof (round1_bounds c) as [_ Hrd]. simpl snd in Ht.
  pose proof (py_min_le_l r (h / 2)) as Hcr. fold c in Hcr.
  match goal with
  | |- context [pack_topic fuel topic days h ?r1 s1 ?d1] =>
      specialize (IH r1 s1 d1);
      destruct (pack_topic fuel topic days h r1 s1 d1) as [[s' d'] r']
  end.
  rewrite Hk in IH.
  destruct IH as [Hk' [Hr' Hphi]]; [assumption | assumption | destruct (Qle_bool _ _); lia
                                   | lra |].
  repeat split; [exact Hk' | exact Hr' |].
  lra.
Qed.

Definition sum_items (items : list (string * Q)) : Q :=
  fold_right (fun '(_, x) acc => x + acc) 0 items.

(** All topics: [sched_total - slack] grows by at most the hours handed in. *)
Lemma pack_all_total days h items s day :
  NoDup (map fst s) ->
  (forall d, (1 <= d <= days)%Z -> In d (map fst s)) ->
  (1 <= day)%Z -> Forall (fun it => 0 <= snd it) items ->
  sched_total (fst (pack_all days h items s day))
    - slack (fst (pack_all days h items s day))
  <= sched_total s - slack s + sum_items items.
Proof.
  revert s day. induction items as [|[t x] rest IH];
    intros s day Hnd Hcov Hday Hpos; cbn [pack_all fst]; [simpl; lra|].
  inversion Hpos as [|it l Hx Hrest]; subst. simpl snd in Hx.
  pose proof (pack_topic_total (topic_fuel h x) t days h x s day Hnd Hcov Hday Hx)
    as Ht.
  pose proof (pack_topic_day_mono (topic_fuel h x) t days h x s day) as Hm.
  destruct (pack_topic _ _ _ _ _ _ _) as [[s1 d1] r1].
  destruct Ht as [Hk [Hr1 Hphi]].
  specialize (IH s1 d1). rewrite Hk in IH.
  specialize (IH Hnd Hcov ltac:(lia) Hrest).
  simpl sum_items. lra.
Qed.

Lemma init_schedule_keys days :
  map fst (init_schedule days) = map Z.of_nat (seq 1 (Z.to_nat days)).
Proof. unfold init_schedule. rewrite map_map. reflexivity. Qed.

Lemma init_schedule_nodup days : NoDup (map fst (init_schedule days)).
Proof.
  rewrite init_schedule_keys.
  apply NoDup_map_NoDup_ForallPairs; [intros a b _ _ H; lia | apply seq_NoDup].
Qed.

Lemma init_schedule_cover days d :
  (1 <= d <= days)%Z -> In d (map fst (init_schedule days)).
Proof.
  intros Hd. rewrite init_schedule_keys. apply in_map_iff.
  exists (Z.to_nat d). split; [lia|]. apply in_seq. lia.
Qed.

Lemma init_schedule_total days :
  sched_total (init_schedule days) == 0 /\ sched_count (init_schedule days) = 0%nat.
Proof.
  unfold init_schedule. induction (seq 1 (Z.to_nat days)) as [|i l [IH1 IH2]];
    simpl; [split; reflexivity|].
  unfold sched_total, sched_count in *. rewrite IH1, IH2. split; reflexivity.
Qed.

Lemma nonempty_days_total s :
  sched_total (nonempty_days s) == sched_total s /\
  sched_count (nonempty_days s) = sched_count s.
Proof.
  induction s as [|[d es] s [IH1 IH2]]; simpl; [split; reflexivity|].
  destruct es as [|e es]; simpl.
  - unfold sched_total, sched_count in *. rewrite IH1, IH2.
    split; [unfold sum_hours; simpl; ring | reflexivity].
  - unfold sched_total, sched_count in *. rewrite IH1, IH2. split; reflexivity.
Qed.

Lemma sum_items_combine (ts : list string) (hs : list Q) :
  List.length ts = List.length hs ->
  sum_items (combine ts hs) == fold_right Qplus 0 hs.
Proof.
  revert hs. induction ts as [|t ts IH]; intros [|x hs] Hl; simpl in *;
    try discriminate; [reflexivity|].
  rewrite IH by lia. reflexivity.
Qed.

Lemma sum_hours_per_topic (ws : list Z) (a T : Q) :
  fold_right Qplus 0 (map (fun w => inject_Z w / a * T) ws)
  == inject_Z (sum_Z ws) / a * T.
Proof.
  induction ws as [|w ws IH]; simpl; [unfold Qdiv; ring|].
  rewrite IH. unfold sum_Z. simpl. rewrite inject_Z_plus. unfold Qdiv. ring.
Qed.

(** The allocations add up to [days_until_exam * hours_per_day]. *)
Lemma topic_hours_sum topics weak days h :
  topics <> [] ->
  sum_items (topic_hours topics weak days h) == inject_Z days * h.
Proof.
  intros Hne. unfold topic_hours, hours_per_topic.
  rewrite sum_items_combine by (unfold weights_of; rewrite !length_map; reflexivity).
  rewrite sum_hours_per_topic.
  pose proof (sum_weights_ge_length (parse_list weak) topics) as HW.
  destruct topics as [|t ts]; [contradiction|]. simpl List.length in HW.
  assert (Hnz : ~ inject_Z (sum_Z (weights_of (parse_list weak) (t :: ts))) == 0).
  { change 0 with (inject_Z 0). rewrite inject_Z_injective. lia. }
  field. exact Hnz.
Qed.

Lemma combine_snd_Forall (P : Q -> Prop) (ts : list string) (hs : list Q) :
  Forall P hs -> Forall (fun it => P (snd it)) (combine ts hs).
Proof.
  revert hs. induction ts as [|t ts IH]; intros [|x hs] H; simpl; constructor.
  - inversion H; assumption.
  - apply IH. inversion H; assumption.
Qed.

Lemma topic_hours_nonneg topics weak days h :
  0 <= inject_Z days * h ->
  Forall (fun it => 0 <= snd it) (topic_hours topics weak days h).
Proof.
  intros HT. unfold topic_hours, hours_per_topic.
  set (wl := parse_list weak).
  set (W := sum_Z (weights_of wl topics)).
  assert (HW : (0 <= W)%Z).
  { pose proof (sum_weights_ge_length wl topics). unfold W. lia. }
  assert (Hpos : forall w, In w (weights_of wl topics) ->
                 0 <= inject_Z w / inject_Z W * (inject_Z days * h)).
  { intros w Hw. unfold weights_of in Hw. apply in_map_iff in Hw as [t [<- _]].
    pose proof (weight_of_ge_1 wl t) as H1.
    apply Qmult_le_0_compat; [|exact HT].
    unfold Qdiv. apply Qmult_le_0_compat.
    - change 0 with (inject_Z 0). rewrite <- Zle_Qle. lia.
    - apply Qinv_le_0_compat. change 0 with (inject_Z 0). rewrite <- Zle_Qle. exact HW. }
  apply combine_snd_Forall. apply Forall_forall. intros x Hx.
  apply in_map_iff in Hx as [w [<- Hw]]. apply Hpos. exact Hw.
Qed.

(* ------------------------------------------------------------------ *)
(** ** Past the last day nothing is packed *)

Lemma pack_all_past_end days h items s day :
  (days < day)%Z -> pack_all days h items s day = (s, day).
Proof.
  intros Hd. induction items as [|[t x] rest IH]; cbn [pack_all]; [reflexivity|].
  rewrite pack_topic_guard_false.
  - exact IH.
  - apply andb_false_iff. right. apply Z.leb_gt. exact Hd.
Qed.

Lemma pack_all_app days h pre post s day :
  pack_all days h (pre ++ post)%list s day =
  pack_all days h post (fst (pack_all days h pre s day))
                       (snd (pack_all days h pre s day)).
Proof.
  revert s day. induction pre as [|[t x] pre IH]; intros s day; [reflexivity|].
  cbn [app pack_all]. destruct (pack_topic _ _ _ _ _ _ _) as [[s1 d1] r1].
  apply IH.
Qed.

(* ------------------------------------------------------------------ *)
(** ** Practice-task selection *)

(** [not focus_list or any(f in topic.lower() for f in focus_list)] *)
Definition focus_okb (focus_list : list string) (t : string) : bool :=
  match focus_list with
  | [] => true
  | _ => existsb (fun f => contains f (lower t)) focus_list
  end.

Lemma collect_tasks_filter focus_list topics :
  collect_tasks focus_list topics =
  map (fun t => (t, practice_tasks_get t))
      (filter (fun t => focus_okb focus_list t &&
                        negb (match practice_tasks_get t with [] => true | _ => false end))
              topics).
Proof.
  induction topics as [|t ts IH]; simpl; [reflexivity|].
  unfold focus_okb.
  destruct focus_list as [|f fs]; simpl.
  - destruct (practice_tasks_get t) eqn:E; simpl; [exact IH | rewrite IH, E; reflexivity].
  - destruct (contains f (lower t) || existsb (fun f => contains f (lower t)) fs);
      simpl; [|exact IH].
    destruct (practice_tasks_get t) eqn:E; simpl; [exact IH | rewrite IH, E; reflexivity].
Qed.

Lemma tasks_line_count_one blocks : (tasks_line_count blocks =? 1)%nat = true <-> blocks = [].
Proof.
  destruct blocks as [|[t ts] bs]; simpl; split; intros H; try reflexivity;
    try discriminate.
Qed.

Lemma focus_okb_spec focus_list t :
  focus_okb focus_list t = true <->
  focus_list = [] \/ exists f, In f focus_list /\ contains f (lower t) = true.
Proof.
  unfold focus_okb. destruct focus_list as [|f fs].
  - split; [left; reflexivity | reflexivity].
  - rewrite existsb_exists. split.
    + intros H. right. exact H.
    + intros [H | H]; [discriminate | exact H].
Qed.

(* ------------------------------------------------------------------ *)
(** ** Allocation by index *)

Lemma hours_per_topic_nth wl topics T i t :
  nth_error topics i = Some t ->
  nth_error (hours_per_topic (weights_of wl topics) T) i =
  Some (inject_Z (weight_of wl t) / inject_Z (sum_Z (weights_of wl topics)) * T).
Proof.
  intros H. unfold hours_per_topic, weights_of.
  rewrite !nth_error_map, H. reflexivity.
Qed.

(* ================================================================== *)
(** * Claims *)

(** ** C1: total scheduled hours *)

(** C1 (as stated, refuted): with [days_until_exam = 1], [hours_per_day = 0.56]
    and no weak topics, six entries of [round(0.08, 1) = 0.1] hours are placed
    on day 1, so the schedule sums to 0.6 hours, more than the 0.56-hour budget. *)
Lemma schedule_hours_exceed_budget_cex :
  ~ (forall module_name days_until_exam hours_per_day weak_topics per_day,
       (1 <= days_until_exam)%Z -> 0 < hours_per_day ->
       syllabus_lookup module_name <> None ->
       build_study_schedule module_name days_until_exam hours_per_day weak_topics
         = ScheduleOk module_name per_day ->
       sched_total per_day <= inject_Z days_until_exam * hours_per_day).
Proof.
  intros H.
  destruct (build_study_schedule "generative ai" 1 (14#25) "") as [m0 P | m0 |] eqn:E;
    pose proof E as E'; vm_compute in E'; [| discriminate E' | discriminate E'].
  injection E' as Hm HP. subst m0 P.
  specialize (H "generative ai" 1%Z (14#25) "" _ ltac:(lia) ltac:(reflexivity)
                ltac:(discriminate) E).
  vm_compute in H. apply H. reflexivity.
Qed.

(** C1 (amended): for a known module, [days_until_exam >= 1] and
    [hours_per_day > 0], the call returns a schedule whose entries sum to at
    most [days_until_exam * hours_per_day] plus the rounding slack of 0.05
    hour per entry. *)
Theorem build_study_schedule_total_within_rounding
    (module_name weak_topics : string) (days_until_exam : Z) (hours_per_day : Q)
    (topics : list string) :
  syllabus_lookup module_name = Some topics ->
  (1 <= days_until_exam)%Z -> 0 < hours_per_day ->
  exists per_day,
    build_study_schedule module_name days_until_exam hours_per_day weak_topics
      = ScheduleOk module_name per_day /\
    sched_total per_day
      <= inject_Z days_until_exam * hours_per_day + slack per_day.
Proof.
  intros Hl Hd Hh.
  pose proof (syllabus_lookup_some _ _ Hl) as Ht. subst topics.
  rewrite (build_study_schedule_known _ _ _ _ _ Hl ltac:(discriminate)).
  set (items := topic_hours generative_ai_topics weak_topics days_until_exam hours_per_day).
  assert (Hfill : day1_filled (fst (pack_all days_until_exam hours_per_day items
                                     (init_schedule days_until_exam) 1%Z))).
  { unfold items, generative_ai_topics. rewrite topic_hours_cons.
    apply pack_all_first_topic; [exact Hd|]. apply first_hours_pos; assumption. }
  destruct (render_day1_filled module_name _ Hfill) as [es [Hr _]].
  rewrite Hr. eexists. split; [reflexivity|].
  assert (HT : 0 <= inject_Z days_until_exam * hours_per_day).
  { apply Qmult_le_0_compat; [|lra].
    change 0 with (inject_Z 0). rewrite <- Zle_Qle. lia. }
  pose proof (pack_all_total days_until_exam hours_per_day items
                (init_schedule days_until_exam) 1%Z
                (init_schedule_nodup days_until_exam)
                (init_schedule_cover days_until_exam) ltac:(lia)
                (topic_hours_nonneg _ _ _ _ HT)) as Hb.
  assert (Hsum : sum_items items == inject_Z days_until_exam * hours_per_day)
    by (apply topic_hours_sum; discriminate).
  destruct (init_schedule_total days_until_exam) as [H0 C0].
  assert (Hs0 : slack (init_schedule days_until_exam) == 0)
    by (unfold slack; rewrite C0; reflexivity).
  set (s := fst (pack_all days_until_exam hours_per_day items
                   (init_schedule days_until_exam) 1%Z)) in *.
  destruct (nonempty_days_total s) as [T1 C1].
  assert (Hsl : slack (nonempty_days s) == slack s)
    by (unfold slack; rewrite C1; reflexivity).
  rewrite T1, Hsl. lra.
Qed.

Lemma build_study_schedule_total_within_rounding_witness :
  exists per_day,
    build_study_schedule "generative ai" 5 3 "" = ScheduleOk "generative ai" per_day /\
    sched_total per_day <= inject_Z 5 * 3 + slack per_day.
Proof.
  apply (build_study_schedule_total_within_rounding "generative ai" "" 5 3
           generative_ai_topics); [reflexivity | lia | reflexivity].
Defined.

(** ** C2: size of a chunk entry *)

(** C2 (as stated, refuted): with [days_until_exam = 5], [hours_per_day = 0.18]
    and no weak topics, the first chunk is [min(0.1286, 0.09) = 0.09] and is
    recorded as [round(0.09, 1) = 0.1 > 0.09 = hours_per_day / 2]. *)
Lemma schedule_entry_exceeds_half_day_cex :
  ~ (forall module_name days_until_exam hours_per_day weak_topics per_day,
       build_study_schedule module_name days_until_exam hours_per_day weak_topics
         = ScheduleOk module_name per_day ->
       forall d es t x, In (d, es) per_day -> In (t, x) es ->
       x <= hours_per_day / 2).
Proof.
  intros H.
  destruct (build_study_schedule "generative ai" 5 (18#100) "") as [m0 P | m0 |] eqn:E;
    pose proof E as E'; vm_compute in E'; [| discriminate E' | discriminate E'].
  injection E' as Hm HP. subst m0 P.
  assert (Hle : (1#10) <= (18#100) / 2).
  { eapply (H _ _ _ _ _ E); [simpl; left; reflexivity | simpl; left; reflexivity]. }
  vm_compute in Hle. apply Hle. reflexivity.
Qed.

(** C2 (amended): every entry of a returned schedule is the one-decimal
    rounding of a chunk of at most [hours_per_day / 2] hours, so it exceeds
    [hours_per_day / 2] by at most the rounding error 0.05. *)
Theorem build_study_schedule_entry_bound
    (module_name weak_topics : string) (days_until_exam : Z) (hours_per_day : Q)
    (module_name' : string) (per_day : list (Z * list entry)) :
  build_study_schedule module_name days_until_exam hours_per_day weak_topics
    = ScheduleOk module_name' per_day ->
  forall d es t x, In (d, es) per_day -> In (t, x) es ->
  x <= hours_per_day / 2 + (1#20).
Proof.
  intros E d es t x Hd Hx.
  destruct (build_study_schedule_ok_inv _ _ _ _ _ _ E) as [items ->].
  set (P := fun e : entry => snd e <= hours_per_day / 2 + (1#20)).
  assert (HP : entries_ok P (nonempty_days (fst (pack_all days_until_exam hours_per_day
                 items (init_schedule days_until_exam) 1%Z)))).
  { apply entries_ok_nonempty, pack_all_entries_ok; [|apply entries_ok_init].
    intros t0 x0. unfold P; simpl.
    pose proof (round1_bounds (py_min x0 (hours_per_day / 2))) as [_ H1].
    pose proof (py_min_le_r x0 (hours_per_day / 2)). lra. }
  exact (HP d es (t, x) Hd Hx).
Qed.

Lemma build_study_schedule_entry_bound_witness :
  match build_study_schedule "generative ai" 5 3 "" with
  | ScheduleOk _ per_day =>
      forall d es t x, In (d, es) per_day -> In (t, x) es -> x <= 3 / 2 + (1#20)
  | _ => False
  end.
Proof.
  destruct (build_study_schedule "generative ai" 5 3 "") as [m0 P | m0 |] eqn:E;
    pose proof E as E'; vm_compute in E'; [| discriminate E' | discriminate E'].
  exact (build_study_schedule_entry_bound "generative ai" "" 5 3 m0 P E).
Defined.

(** ** C3: weak topics get double hours *)

(** C3: with the weak list parsed from [weak_topics] (stripped, lower-cased
    pieces), a topic whose lower-cased name contains one of them gets weight 2,
    a topic containing none gets weight 1, and for any total budget the first
    receives exactly twice the hours of the second. *)
Theorem weak_topic_double_allocation (weak_topics : string) (topics : list string)
    (total_hours : Q) (i j : nat) (ti tj : string) :
  nth_error topics i = Some ti -> nth_error topics j = Some tj ->
  (exists w, In w (parse_list weak_topics) /\ contains w (lower ti) = true) ->
  (forall w, In w (parse_list weak_topics) -> contains w (lower tj) = false) ->
  weight_of (parse_list weak_topics) ti = 2%Z /\
  weight_of (parse_list weak_topics) tj = 1%Z /\
  exists hi hj,
    nth_error (hours_per_topic (weights_of (parse_list weak_topics) topics) total_hours) i
      = Some hi /\
    nth_error (hours_per_topic (weights_of (parse_list weak_topics) topics) total_hours) j
      = Some hj /\
    hi == 2 * hj.
Proof.
  intros Hi Hj Hweak Hstrong.
  set (wl := parse_list weak_topics) in *.
  assert (W2 : weight_of wl ti = 2%Z).
  { unfold weight_of. replace (existsb _ wl) with true; [reflexivity|].
    symmetry. apply existsb_exists. exact Hweak. }
  assert (W1 : weight_of wl tj = 1%Z).
  { unfold weight_of. replace (existsb _ wl) with false; [reflexivity|].
    symmetry. apply not_true_iff_false. intros H.
    apply existsb_exists in H as [w [Hw Hc]]. rewrite (Hstrong w Hw) in Hc.
    discriminate. }
  split; [exact W2|]. split; [exact W1|].
  rewrite (hours_per_topic_nth wl topics total_hours i ti Hi),
          (hours_per_topic_nth wl topics total_hours j tj Hj), W2, W1.
  do 2 eexists. split; [reflexivity|]. split; [reflexivity|].
  unfold Qdiv. change (inject_Z 2) with 2. change (inject_Z 1) with 1. ring.
Qed.

Lemma weak_topic_double_allocation_witness :
  weight_of (parse_list "Rag") "RAG" = 2%Z /\
  weight_of (parse_list "Rag") "LLM fundamentals" = 1%Z /\
  exists hi hj,
    nth_error (hours_per_topic (weights_of (parse_list "Rag") generative_ai_topics) 15) 5
      = Some hi /\
    nth_error (hours_per_topic (weights_of (parse_list "Rag") generative_ai_topics) 15) 0
      = Some hj /\
    hi == 2 * hj.
Proof.
  apply (weak_topic_double_allocation "Rag" generative_ai_topics 15 5 0
           "RAG" "LLM fundamentals"); [reflexivity | reflexivity | |].
  - exists "rag". split; [left; reflexivity | reflexivity].
  - intros w Hw. destruct Hw as [<- | []]. reflexivity.
Defined.

(** ** C4: hours left over after the last day are dropped *)

(** C4: for a valid request (known module, [days_until_exam >= 1],
    [hours_per_day > 0]), if the loop of some topic ends with the day cursor
    past [days_until_exam] while hours of that topic remain, the remaining
    topics add nothing: the result is the rendering of the schedule reached
    at that point, and it is a normal, non-empty schedule (no error outcome). *)
Theorem build_study_schedule_drops_overflow
    (module_name weak_topics : string) (days_until_exam : Z) (hours_per_day : Q)
    (topics : list string) (pre post : list (string * Q)) (topic : string)
    (hours : Q) (s1 s2 : schedule_t) (d1 d2 : Z) (leftover : Q) :
  syllabus_lookup module_name = Some topics ->
  (1 <= days_until_exam)%Z -> 0 < hours_per_day ->
  topic_hours topics weak_topics days_until_exam hours_per_day
    = (pre ++ (topic, hours) :: post)%list ->
  pack_all days_until_exam hours_per_day pre (init_schedule days_until_exam) 1%Z
    = (s1, d1) ->
  pack_topic (topic_fuel hours_per_day hours) topic days_until_exam hours_per_day
             hours s1 d1 = (s2, d2, leftover) ->
  (days_until_exam < d2)%Z -> 0 < leftover ->
  build_study_schedule module_name days_until_exam hours_per_day weak_topics
    = render_schedule module_name s2 /\
  exists per_day,
    render_schedule module_name s2 = ScheduleOk module_name per_day /\ per_day <> [].
Proof.
  intros Hl Hd Hh Hitems Hpre Htop Hpast _.
  pose proof (syllabus_lookup_some _ _ Hl) as Ht. subst topics.
  assert (Hall : fst (pack_all days_until_exam hours_per_day
                       (topic_hours generative_ai_topics weak_topics
                                    days_until_exam hours_per_day)
                       (init_schedule days_until_exam) 1%Z) = s2).
  { rewrite Hitems, pack_all_app, Hpre. cbn [fst snd pack_all].
    rewrite Htop, pack_all_past_end by exact Hpast. reflexivity. }
  assert (Hfill : day1_filled s2).
  { rewrite <- Hall. unfold generative_ai_topics. rewrite topic_hours_cons.
    apply pack_all_first_topic; [exact Hd|]. apply first_hours_pos; assumption. }
  split.
  - rewrite (build_study_schedule_known _ _ _ _ _ Hl ltac:(discriminate)), Hall.
    reflexivity.
  - destruct (render_day1_filled module_name s2 Hfill) as [es [Hr [Hin _]]].
    exists (nonempty_days s2). split; [exact Hr|].
    intros Hnil. rewrite Hnil in Hin. destruct Hin.
Qed.

(** Inputs of the overflow example: one day of 0.56 hour, no weak topics;
    day 1 is full after six topics and the seventh is dropped. *)
Definition overflow_items : list (string * Q) :=
  topic_hours generative_ai_topics "" 1 (14#25).

Definition overflow_pre : list (string * Q) := firstn 6 overflow_items.

Definition overflow_last : string * Q := nth 6 overflow_items ("", 0).

Definition overflow_state1 : schedule_t * Z :=
  pack_all 1 (14#25) overflow_pre (init_schedule 1) 1%Z.

Definition overflow_state2 : schedule_t * Z * Q :=
  pack_topic (topic_fuel (14#25) (snd overflow_last)) (fst overflow_last) 1 (14#25)
             (snd overflow_last) (fst overflow_state1) (snd overflow_state1).

Lemma build_study_schedule_drops_overflow_witness :
  (1 < snd (fst overflow_state2))%Z /\ 0 < snd overflow_state2 /\
  build_study_schedule "generative ai" 1 (14#25) ""
    = render_schedule "generative ai" (fst (fst overflow_state2)) /\
  exists per_day,
    render_schedule "generative ai" (fst (fst overflow_state2))
      = ScheduleOk "generative ai" per_day /\ per_day <> [].
Proof.
  split; [vm_compute; reflexivity|]. split; [vm_compute; reflexivity|].
  apply (build_study_schedule_drops_overflow "generative ai" "" 1 (14#25)
           generative_ai_topics overflow_pre [] (fst overflow_last)
           (snd overflow_last) (fst overflow_state1) (fst (fst overflow_state2))
           (snd overflow_state1) (snd (fst overflow_state2)) (snd overflow_state2));
    [ reflexivity | lia | reflexivity | vm_compute; reflexivity
    | vm_compute; reflexivity | vm_compute; reflexivity
    | vm_compute; reflexivity | vm_compute; reflexivity ].
Defined.

(** ** C5: the uniform example *)

(** C5: for ["generative ai"], 5 days, 3 hours per day and no weak topics,
    every weight is 1, every topic is allocated 15/7 hours, and the call
    returns a non-empty per-day schedule in which all 7 catalog topics occur. *)
Theorem build_study_schedule_uniform_example :
  weights_of (parse_list "") generative_ai_topics = repeat 1%Z 7 /\
  Forall (fun x => x == 15#7)
    (hours_per_topic (weights_of (parse_list "") generative_ai_topics) (inject_Z 5 * 3)) /\
  exists per_day,
    build_study_schedule "generative ai" 5 3 "" = ScheduleOk "generative ai" per_day /\
    per_day <> [] /\
    forallb (fun t => existsb (fun '(_, es) =>
                        existsb (fun e => String.eqb (fst e) t) es) per_day)
            generative_ai_topics = true.
Proof.
  split; [reflexivity|].
  split; [repeat constructor|].
  destruct (build_study_schedule "generative ai" 5 3 "") as [m0 P | m0 |] eqn:E;
    pose proof E as E'; vm_compute in E'; [| discriminate E' | discriminate E'].
  injection E' as Hm HP. subst m0 P.
  eexists. split; [exact E|]. split; [discriminate | vm_compute; reflexivity].
Qed.

(** ** C6: unknown modules *)

(** C6: when the lower-cased, stripped module name is not a key of the
    syllabus, all three tools return the NotFound outcome carrying the module
    name as given. *)
Theorem unknown_module_not_found (module_name weak_topics focus_topics : string)
    (days_until_exam : Z) (hours_per_day : Q) :
  ~ In (strip (lower module_name)) (map fst SYLLABUS) ->
  get_module_outline module_name = OutlineNotFound module_name /\
  build_study_schedule module_name days_until_exam hours_per_day weak_topics
    = ScheduleNotFound module_name /\
  suggest_practice_tasks module_name focus_topics = TasksNotFound module_name.
Proof.
  intros H. apply syllabus_lookup_none in H.
  unfold get_module_outline, build_study_schedule, suggest_practice_tasks.
  rewrite H. repeat split.
Qed.

Lemma unknown_module_not_found_witness :
  get_module_outline "nonexistent module" = OutlineNotFound "nonexistent module" /\
  build_study_schedule "nonexistent module" 5 3 ""
    = ScheduleNotFound "nonexistent module" /\
  suggest_practice_tasks "nonexistent module" "RAG"
    = TasksNotFound "nonexistent module".
Proof.
  apply unknown_module_not_found. simpl. intros [H | []]. discriminate H.
Defined.

(** ** C7: practice-task selection *)

(** C7: for a known module, [suggest_practice_tasks] answers NoMatches exactly
    when every topic is filtered out by the focus list or has no registered
    task; otherwise it returns, in catalog order, the topics passing the focus
    filter (all topics for an empty focus list) that have tasks, each with its
    full task list. *)
Theorem suggest_practice_tasks_selection (module_name focus_topics : string)
    (topics : list string) :
  syllabus_lookup module_name = Some topics ->
  (suggest_practice_tasks module_name focus_topics = TasksNoMatches <->
   Forall (fun t =>
             ~ (parse_list focus_topics = [] \/
                exists f, In f (parse_list focus_topics) /\ contains f (lower t) = true)
             \/ practice_tasks_get t = [])
          topics) /\
  (suggest_practice_tasks module_name focus_topics <> TasksNoMatches ->
   suggest_practice_tasks module_name focus_topics =
   TasksOk (map (fun t => (t, practice_tasks_get t))
                (filter (fun t => focus_okb (parse_list focus_topics) t &&
                                  negb (match practice_tasks_get t with
                                        | [] => true | _ => false end))
                        topics))).
Proof.
  intros Hl.
  pose proof (syllabus_lookup_some _ _ Hl) as Ht.
  destruct topics as [|t0 ts0]; [discriminate Ht|]. clear Ht.
  unfold suggest_practice_tasks. rewrite Hl. cbv beta iota zeta.
  remember (t0 :: ts0) as topics eqn:Htop.
  rewrite collect_tasks_filter.
  set (fl := parse_list focus_topics).
  set (keep := fun t => focus_okb fl t &&
                        negb (match practice_tasks_get t with [] => true | _ => false end)).
  set (blocks := map (fun t => (t, practice_tasks_get t)) (filter keep topics)).
  assert (Hkeep : forall t, keep t = false <->
                  ~ (fl = [] \/ exists f, In f fl /\ contains f (lower t) = true)
                  \/ practice_tasks_get t = []).
  { intros t. unfold keep. rewrite <- focus_okb_spec.
    destruct (focus_okb fl t); destruct (practice_tasks_get t) as [|x xs]; simpl.
    - split; intros _; [right; reflexivity | reflexivity].
    - split; [discriminate|].
      intros [H | H]; [exfalso; apply H; reflexivity | discriminate].
    - split; intros _; [right; reflexivity | reflexivity].
    - split; intros _; [left; discriminate | reflexivity]. }
  assert (Hnil : filter keep topics = [] <->
                 Forall (fun t => keep t = false) topics).
  { clear. induction topics as [|t ts IH]; simpl; [split; auto|].
    destruct (keep t) eqn:E; split; intros H.
    - discriminate.
    - inversion H; congruence.
    - constructor; [exact E | apply IH; exact H].
    - inversion H; apply IH; assumption. }
  split.
  - destruct ((tasks_line_count blocks =? 1)%nat) eqn:E.
    + apply tasks_line_count_one in E. unfold blocks in E.
      apply map_eq_nil in E. split; [intros _|reflexivity].
      apply Hnil in E. eapply Forall_impl; [|exact E]. intros t. apply Hkeep.
    + split; [discriminate|]. intros HF. exfalso.
      assert (E' : blocks = []).
      { unfold blocks. replace (filter keep topics) with (@nil string); [reflexivity|].
        symmetry. apply Hnil. eapply Forall_impl; [|exact HF]. intros t. apply Hkeep. }
      rewrite E' in E. discriminate.
  - destruct ((tasks_line_count blocks =? 1)%nat); [intros H; contradiction|].
    intros _. reflexivity.
Qed.

Lemma suggest_practice_tasks_selection_witness :
  (suggest_practice_tasks "generative ai" "RAG" = TasksNoMatches <->
   Forall (fun t =>
             ~ (parse_list "RAG" = [] \/
                exists f, In f (parse_list "RAG") /\ contains f (lower t) = true)
             \/ practice_tasks_get t = [])
          generative_ai_topics) /\
  (suggest_practice_tasks "generative ai" "RAG" <> TasksNoMatches ->
   suggest_practice_tasks "generative ai" "RAG" =
   TasksOk (map (fun t => (t, practice_tasks_get t))
                (filter (fun t => focus_okb (parse_list "RAG") t &&
                                  negb (match practice_tasks_get t with
                                        | [] => true | _ => false end))
                        generative_ai_topics))).
Proof.
  apply suggest_practice_tasks_selection. reflexivity.
Defined.

(** ** C8: the RAG example *)

(** C8: asking for focus "RAG" in "generative ai" returns exactly the topic
    "RAG" with its two registered tasks; "OpenAI & Groq APIs", which has no
    registered task, is skipped. *)
Theorem suggest_practice_tasks_rag :
  suggest_practice_tasks "generative ai" "RAG"
    = TasksOk [("RAG", practice_tasks_get "RAG")] /\
  List.length (practice_tasks_get "RAG") = 2%nat /\
  practice_tasks_get "OpenAI & Groq APIs" = [].
Proof. vm_compute. repeat split. Qed.

(** ** C9: the Unbuildable branch is unreachable *)

(** C9: for a known module, [days_until_exam >= 1] and [hours_per_day > 0],
    the total weight is at least 1 (so the division by it is safe) and the
    call returns a schedule in which day 1 has at least one entry; the
    "Could not build a useful schedule." outcome never occurs. *)
Theorem build_study_schedule_never_unbuildable
    (module_name weak_topics : string) (days_until_exam : Z) (hours_per_day : Q)
    (topics : list string) :
  syllabus_lookup module_name = Some topics ->
  (1 <= days_until_exam)%Z -> 0 < hours_per_day ->
  (1 <= sum_Z (weights_of (parse_list weak_topics) topics))%Z /\
  exists per_day es,
    build_study_schedule module_name days_until_exam hours_per_day weak_topics
      = ScheduleOk module_name per_day /\
    In (1%Z, es) per_day /\ es <> [].
Proof.
  intros Hl Hd Hh.
  pose proof (syllabus_lookup_some _ _ Hl) as Ht. subst topics.
  split.
  { pose proof (sum_weights_ge_length (parse_list weak_topics) generative_ai_topics)
      as HW. simpl List.length in HW. lia. }
  rewrite (build_study_schedule_known _ _ _ _ _ Hl ltac:(discriminate)).
  assert (Hfill : day1_filled
                    (fst (pack_all days_until_exam hours_per_day
                            (topic_hours generative_ai_topics weak_topics
                                         days_until_exam hours_per_day)
                            (init_schedule days_until_exam) 1%Z))).
  { unfold generative_ai_topics. rewrite topic_hours_cons.
    apply pack_all_first_topic; [exact Hd|]. apply first_hours_pos; assumption. }
  destruct (render_day1_filled module_name _ Hfill) as [es [Hr [Hin Hne]]].
  exists (nonempty_days (fst (pack_all days_until_exam hours_per_day
                                (topic_hours generative_ai_topics weak_topics
                                             days_until_exam hours_per_day)
                                (init_schedule days_until_exam) 1%Z))), es.
  split; [exact Hr|]. split; assumption.
Qed.

Lemma build_study_schedule_never_unbuildable_witness :
  (1 <= sum_Z (weights_of (parse_list "rag, llm") generative_ai_topics))%Z /\
  exists per_day es,
    build_study_schedule "Generative AI" 2 (1#2) "rag, llm"
      = ScheduleOk "Generative AI" per_day /\
    In (1%Z, es) per_day /\ es <> [].
Proof.
  apply build_study_schedule_never_unbuildable; [reflexivity | lia | reflexivity].
Defined.

(** ** C10: termination of the packing loop *)

(** C10: for [hours_per_day > 0], the inner [while] loop of one topic ends
    within [topic_fuel] iterations: it stops in a state where its guard
    [remaining > 0 and day <= days_until_exam] is false, any larger
    iteration budget gives the same state, and the day cursor never
    decreases and never passes [days_until_exam + 1]. *)
Theorem pack_topic_terminates (topic : string) (days_until_exam : Z)
    (hours_per_day remaining : Q) (schedule : schedule_t) (day : Z) :
  0 < hours_per_day ->
  match pack_topic (topic_fuel hours_per_day remaining) topic days_until_exam
          hours_per_day remaining schedule day with
  | (schedule', day', remaining') =>
      ~ (0 < remaining' /\ (day' <= days_until_exam)%Z) /\
      (day <= day')%Z /\
      ((day <= days_until_exam + 1)%Z -> (day' <= days_until_exam + 1)%Z) /\
      forall fuel, (topic_fuel hours_per_day remaining <= fuel)%nat ->
        pack_topic fuel topic days_until_exam hours_per_day remaining schedule day
          = (schedule', day', remaining')
  end.
Proof.
  intros Hh.
  pose proof (pack_topic_exits (topic_fuel hours_per_day remaining) topic
                days_until_exam hours_per_day remaining schedule day Hh
                (le_n _)) as Hx.
  pose proof (pack_topic_day_mono (topic_fuel hours_per_day remaining) topic
                days_until_exam hours_per_day remaining schedule day) as Hm.
  destruct (pack_topic (topic_fuel hours_per_day remaining) topic days_until_exam
              hours_per_day remaining schedule day) as [[s' d'] r'] eqn:E.
  destruct Hm as [Hm1 Hm2].
  split; [|split; [exact Hm1 | split; [exact Hm2|]]].
  - intros [Hr Hd]. apply andb_false_iff in Hx as [Hx | Hx].
    + apply qlt_false in Hx. lra.
    + apply Z.leb_gt in Hx. lia.
  - intros fuel Hf. replace fuel with (topic_fuel hours_per_day remaining
                                       + (fuel - topic_fuel hours_per_day remaining))%nat
      by lia.
    apply pack_topic_more_fuel; assumption.
Qed.

Lemma pack_topic_terminates_witness :
  match pack_topic (topic_fuel 3 (15#7)) "RAG" 5 3 (15#7) (init_schedule 5) 1%Z with
  | (schedule', day', remaining') =>
      ~ (0 < remaining' /\ (day' <= 5)%Z) /\
      (1 <= day')%Z /\
      ((1 <= 5 + 1)%Z -> (day' <= 5 + 1)%Z) /\
      forall fuel, (topic_fuel 3 (15#7) <= fuel)%nat ->
        pack_topic fuel "RAG" 5 3 (15#7) (init_schedule 5) 1%Z
          = (schedule', day', remaining')
  end.
Proof.
  apply (pack_topic_terminates "RAG" 5 3 (15#7) (init_schedule 5) 1%Z).
  reflexivity.
Defined.

(* ================================================================== *)
(** * Further properties of the code *)

(** ** Character-level facts (checked over all 256 characters) *)

Ltac all_chars c :=
  destruct c as [b0 b1 b2 b3 b4 b5 b6 b7];
  destruct b0, b1, b2, b3, b4, b5, b6, b7; reflexivity.

Lemma ascii_lower_idem c : ascii_lower (ascii_lower c) = ascii_lower c.
Proof. all_chars c. Qed.

Lemma is_space_lower c : is_space (ascii_lower c) = is_space c.
Proof. all_chars c. Qed.

Lemma ascii_lower_space c : is_space c = true -> ascii_lower c = c.
Proof. destruct c as [b0 b1 b2 b3 b4 b5 b6 b7];
  destruct b0, b1, b2, b3, b4, b5, b6, b7; first [reflexivity | discriminate]. Qed.

Lemma ascii_lower_comma c : ascii_lower c = ","%char -> c = ","%char.
Proof. destruct c as [b0 b1 b2 b3 b4 b5 b6 b7];
  destruct b0, b1, b2, b3, b4, b5, b6, b7; first [reflexivity | discriminate]. Qed.

Lemma comma_not_space : is_space ","%char = false.
Proof. reflexivity. Qed.

(** ** Strings as character lists *)

Lemma list_ascii_of_string_app (s1 s2 : string) :
  list_ascii_of_string (s1 ++ s2) = (list_ascii_of_string s1 ++ list_ascii_of_string s2)%list.
Proof. induction s1 as [|c s1 IH]; simpl; [reflexivity | rewrite IH; reflexivity]. Qed.

Lemma list_ascii_of_lower (s : string) :
  list_ascii_of_string (lower s) = map ascii_lower (list_ascii_of_string s).
Proof. induction s as [|c s IH]; simpl; [reflexivity | rewrite IH; reflexivity]. Qed.

Lemma lower_as_list (s : string) :
  lower s = string_of_list_ascii (map ascii_lower (list_ascii_of_string s)).
Proof.
  rewrite <- list_ascii_of_lower, string_of_list_ascii_of_string. reflexivity.
Qed.

Lemma strip_as_list (s : string) :
  strip s = string_of_list_ascii (strip_l (list_ascii_of_string s)).
Proof. reflexivity. Qed.

Lemma drop_spaces_map_lower l :
  drop_spaces (map ascii_lower l) = map ascii_lower (drop_spaces l).
Proof.
  induction l as [|c l IH]; simpl; [reflexivity|].
  rewrite is_space_lower. destruct (is_space c); [exact IH | reflexivity].
Qed.

Lemma strip_l_map_lower l : strip_l (map ascii_lower l) = map ascii_lower (strip_l l).
Proof.
  unfold strip_l. rewrite drop_spaces_map_lower, <- map_rev, drop_spaces_map_lower, map_rev.
  reflexivity.
Qed.

Lemma drop_spaces_idem l : drop_spaces (drop_spaces l) = drop_spaces l.
Proof.
  induction l as [|c l IH]; simpl; [reflexivity|].
  destruct (is_space c) eqn:E; [exact IH | simpl; rewrite E; reflexivity].
Qed.

Lemma drop_spaces_snoc l c :
  is_space c = false -> drop_spaces (l ++ [c]) = (drop_spaces l ++ [c])%list.
Proof.
  intros Hc. induction l as [|c0 l IH]; simpl; [rewrite Hc; reflexivity|].
  destruct (is_space c0); [exact IH | reflexivity].
Qed.

Lemma drop_spaces_head l :
  match drop_spaces l with [] => True | c :: _ => is_space c = false end.
Proof.
  induction l as [|c l IH]; simpl; [exact I|].
  destruct (is_space c) eqn:E; [exact IH | exact E].
Qed.

Lemma strip_l_idem l : strip_l (strip_l l) = strip_l l.
Proof.
  unfold strip_l.
  pose proof (drop_spaces_head l) as Hh.
  destruct (drop_spaces l) as [|c xs] eqn:E; [reflexivity|].
  simpl rev. rewrite (drop_spaces_snoc _ _ Hh), rev_app_distr. simpl.
  rewrite Hh. simpl rev. rewrite rev_involutive, (drop_spaces_snoc _ _ Hh),
  drop_spaces_idem, rev_app_distr. reflexivity.
Qed.

Lemma drop_spaces_incl l c : In c (drop_spaces l) -> In c l.
Proof.
  induction l as [|c0 l IH]; simpl; [auto|].
  destruct (is_space c0); [intros H; right; apply IH; exact H | auto].
Qed.

Lemma strip_l_incl l c : In c (strip_l l) -> In c l.
Proof.
  unfold strip_l. intros H. apply in_rev in H. apply drop_spaces_incl in H.
  apply in_rev in H. apply drop_spaces_incl in H. exact H.
Qed.

Lemma drop_spaces_all_spaces p x :
  forallb is_space p = true -> drop_spaces (p ++ x) = drop_spaces x.
Proof.
  induction p as [|c p IH]; simpl; [reflexivity|].
  intros H. apply andb_true_iff in H as [Hc Hp]. rewrite Hc. apply IH, Hp.
Qed.

Lemma drop_spaces_all_spaces_nil p :
  forallb is_space p = true -> drop_spaces p = [].
Proof.
  intros H. rewrite <- (app_nil_r p). rewrite drop_spaces_all_spaces by exact H.
  reflexivity.
Qed.

Lemma drop_spaces_app_spaces l p :
  forallb is_space p = true ->
  drop_spaces (l ++ p) = match drop_spaces l with [] => [] | d => (d ++ p)%list end.
Proof.
  intros Hp. induction l as [|c l IH]; simpl.
  - apply drop_spaces_all_spaces_nil, Hp.
  - destruct (is_space c) eqn:E; [exact IH | reflexivity].
Qed.

(** Surrounding whitespace does not change [strip]. *)
Lemma strip_l_pad p1 l p2 :
  forallb is_space p1 = true -> forallb is_space p2 = true ->
  strip_l (p1 ++ l ++ p2) = strip_l l.
Proof.
  intros H1 H2. unfold strip_l.
  rewrite drop_spaces_all_spaces by exact H1.
  rewrite drop_spaces_app_spaces by exact H2.
  destruct (drop_spaces l) as [|c xs] eqn:E; [reflexivity|].
  rewrite rev_app_distr, drop_spaces_all_spaces; [reflexivity|].
  rewrite forallb_forall in *. intros x Hx. apply H2. apply in_rev. exact Hx.
Qed.

Lemma lower_idem (s : string) : lower (lower s) = lower s.
Proof. induction s as [|c s IH]; simpl; [reflexivity | rewrite ascii_lower_idem, IH; reflexivity]. Qed.

Lemma map_lower_spaces p : forallb is_space p = true -> map ascii_lower p = p.
Proof.
  induction p as [|c p IH]; simpl; [reflexivity|].
  intros H. apply andb_true_iff in H as [Hc Hp].
  rewrite ascii_lower_space by exact Hc. rewrite IH by exact Hp. reflexivity.
Qed.

Lemma in_rev_iff {A} (x : A) l : In x (rev l) -> In x l.
Proof. apply in_rev. Qed.

Lemma split_comma_aux_no_comma l cur :
  ~ In ","%char cur ->
  Forall (fun piece => ~ In ","%char piece) (split_comma_aux l cur).
Proof.
  revert cur. induction l as [|c l IH]; intros cur Hcur; simpl.
  - constructor; [intros H; apply Hcur, in_rev_iff, H | constructor].
  - destruct (Ascii.eqb c ",") eqn:E.
    + constructor; [intros H; apply Hcur, in_rev_iff, H|]. apply IH. intros [].
    + apply IH. intros [H | H]; [|exact (Hcur H)].
      subst. rewrite Ascii.eqb_refl in E. discriminate.
Qed.

Lemma split_comma_aux_app l1 l2 cur :
  split_comma_aux (l1 ++ ","%char :: l2) cur =
  (split_comma_aux l1 cur ++ split_comma_aux l2 [])%list.
Proof.
  revert cur. induction l1 as [|c l1 IH]; intros cur; simpl; [reflexivity|].
  destruct (Ascii.eqb c ","); [rewrite IH; reflexivity | apply IH].
Qed.

(** Entries of a parsed weak/focus list ([[w.strip().lower() for w in
    s.split(",") if w.strip()]]) are non-empty, lower-case, carry no
    surrounding whitespace and contain no comma. *)
Theorem parse_list_entries (s w : string) :
  In w (parse_list s) ->
  w <> "" /\ lower w = w /\ strip w = w /\ ~ In ","%char (list_ascii_of_string w).
Proof.
  unfold parse_list. intros Hw.
  apply in_map_iff in Hw as [p [<- Hp]]. apply filter_In in Hp as [Hp Hne].
  unfold split_comma in Hp. apply in_map_iff in Hp as [piece [<- Hpiece]].
  pose proof (split_comma_aux_no_comma (list_ascii_of_string s) [] (fun H => H))
    as Hnc.
  rewrite Forall_forall in Hnc. specialize (Hnc piece Hpiece).
  set (q := strip (string_of_list_ascii piece)) in *.
  assert (Hq : list_ascii_of_string q = strip_l piece).
  { unfold q. rewrite strip_as_list, list_ascii_of_string_of_list_ascii,
      list_ascii_of_string_of_list_ascii. reflexivity. }
  split; [|split; [|split]].
  - destruct q; [discriminate Hne | discriminate].
  - apply lower_idem.
  - rewrite strip_as_list, list_ascii_of_lower, strip_l_map_lower, Hq, strip_l_idem,
      <- Hq, <- lower_as_list. reflexivity.
  - rewrite list_ascii_of_lower, Hq. intros H.
    apply in_map_iff in H as [c [Hc Hin]]. apply ascii_lower_comma in Hc. subst c.
    apply strip_l_incl in Hin. exact (Hnc Hin).
Qed.

Lemma parse_list_entries_witness :
  In "rag" (parse_list " RAG , ,LangChain") /\
  ("rag" <> "" /\ lower "rag" = "rag" /\ strip "rag" = "rag" /\
   ~ In ","%char (list_ascii_of_string "rag")).
Proof.
  assert (H : In "rag" (parse_list " RAG , ,LangChain")) by (simpl; left; reflexivity).
  split; [exact H | exact (parse_list_entries _ _ H)].
Defined.

Lemma parse_list_comma_split (s1 s2 : string) :
  parse_list (s1 ++ "," ++ s2) = (parse_list s1 ++ parse_list s2)%list.
Proof.
  unfold parse_list, split_comma.
  rewrite list_ascii_of_string_app. simpl list_ascii_of_string at 2.
  rewrite split_comma_aux_app, !map_app, filter_app, map_app. reflexivity.
Qed.

(** Joining two comma lists joins their parsed entries. *)
Theorem parse_list_comma_app (s1 s2 : string) :
  parse_list (s1 ++ "," ++ s2) = (parse_list s1 ++ parse_list s2)%list.
Proof. apply parse_list_comma_split. Qed.

(** [SYLLABUS.get(module_name.lower().strip())]: whitespace around the module
    name does not change the lookup. *)
Theorem syllabus_lookup_padding (pad1 module_name pad2 : string) :
  forallb is_space (list_ascii_of_string pad1) = true ->
  forallb is_space (list_ascii_of_string pad2) = true ->
  syllabus_lookup (pad1 ++ module_name ++ pad2) = syllabus_lookup module_name.
Proof.
  intros H1 H2. unfold syllabus_lookup. f_equal.
  rewrite !strip_as_list, !list_ascii_of_lower, !list_ascii_of_string_app, !map_app,
    (map_lower_spaces _ H1), (map_lower_spaces _ H2), strip_l_pad by assumption.
  reflexivity.
Qed.

Lemma syllabus_lookup_padding_witness :
  syllabus_lookup ("  " ++ "Generative AI" ++ " ") = syllabus_lookup "Generative AI".
Proof. apply syllabus_lookup_padding; reflexivity. Defined.

(* ------------------------------------------------------------------ *)
(** ** Weak and focus lists *)

(** Adding weak topics after a comma never lowers the weight of a topic. *)
Theorem weight_of_more_weak (weak1 weak2 t : string) :
  (weight_of (parse_list weak1) t <= weight_of (parse_list (weak1 ++ "," ++ weak2)) t)%Z.
Proof.
  unfold weight_of. rewrite parse_list_comma_split, existsb_app.
  destruct (existsb _ (parse_list weak1)); simpl; [lia|].
  destruct (existsb _ (parse_list weak2)); lia.
Qed.

Lemma focus_okb_app l1 l2 t :
  l1 <> [] -> focus_okb l1 t = true -> focus_okb (l1 ++ l2)%list t = true.
Proof.
  destruct l1 as [|f l1]; [intros H; contradiction H; reflexivity|].
  intros _. unfold focus_okb. simpl. rewrite existsb_app. intros H.
  apply orb_true_iff in H as [H | H]; rewrite H; [reflexivity|].
  rewrite orb_true_r. reflexivity.
Qed.

Lemma map_filter_incl {A B} (g : A -> B) (p q : A -> bool) (l : list A) :
  (forall x, p x = true -> q x = true) ->
  incl (map g (filter p l)) (map g (filter q l)).
Proof.
  intros Hpq y Hy. apply in_map_iff in Hy as [x [<- Hx]].
  apply filter_In in Hx as [Hx Hp]. apply in_map. apply filter_In. auto.
Qed.

(** With a non-empty focus list, adding focus topics after a comma keeps
    every block already suggested. *)
Theorem suggest_practice_tasks_more_focus (module_name focus1 focus2 : string)
    (blocks1 : list (string * list string)) :
  parse_list focus1 <> [] ->
  suggest_practice_tasks module_name focus1 = TasksOk blocks1 ->
  exists blocks2,
    suggest_practice_tasks module_name (focus1 ++ "," ++ focus2) = TasksOk blocks2 /\
    incl blocks1 blocks2.
Proof.
  intros Hne. unfold suggest_practice_tasks.
  destruct (syllabus_lookup module_name) as [[|t ts]|]; try discriminate.
  set (topics := t :: ts).
  destruct (tasks_line_count (collect_tasks (parse_list focus1) topics) =? 1)%nat eqn:E1;
    [discriminate|].
  intros H. injection H as <-.
  assert (Hincl : incl (collect_tasks (parse_list focus1) topics)
                       (collect_tasks (parse_list (focus1 ++ "," ++ focus2)) topics)).
  { rewrite !collect_tasks_filter, parse_list_comma_split. apply map_filter_incl.
    intros x Hx. apply andb_true_iff in Hx as [Hx1 Hx2].
    rewrite (focus_okb_app _ _ _ Hne Hx1), Hx2. reflexivity. }
  destruct (tasks_line_count (collect_tasks (parse_list (focus1 ++ "," ++ focus2)) topics) =? 1)%nat
    eqn:E2.
  - apply tasks_line_count_one in E2. rewrite E2 in Hincl.
    apply incl_l_nil in Hincl. rewrite Hincl in E1. discriminate.
  - eexists. split; [reflexivity | exact Hincl].
Qed.

Lemma suggest_practice_tasks_more_focus_witness :
  parse_list "rag" <> [] /\
  suggest_practice_tasks "Generative AI" "rag" =
    TasksOk [("RAG", practice_tasks_get "RAG")] /\
  exists blocks2,
    suggest_practice_tasks "Generative AI" ("rag" ++ "," ++ "langchain") = TasksOk blocks2 /\
    incl [("RAG", practice_tasks_get "RAG")] blocks2.
Proof.
  assert (H1 : parse_list "rag" <> []) by (vm_compute; discriminate).
  assert (H2 : suggest_practice_tasks "Generative AI" "rag" =
               TasksOk [("RAG", practice_tasks_get "RAG")]) by (vm_compute; reflexivity).
  split; [exact H1 | split; [exact H2 | exact (suggest_practice_tasks_more_focus _ _ _ _ H1 H2)]].
Defined.


Lemma filter_all_false {A} (p : A -> bool) (l : list A) :
  (forall x, In x l -> p x = false) -> filter p l = [].
Proof.
  induction l as [|x l IH]; simpl; intros H; [reflexivity|].
  rewrite (H x (or_introl eq_refl)). apply IH. intros y Hy. apply H. right. exact Hy.
Qed.




(** Every module the syllabus knows is found by all three tools. *)
Theorem known_module_found (module_name weak_topics focus_topics : string)
    (days_until_exam : Z) (hours_per_day : Q) :
  In (strip (lower module_name)) (map fst SYLLABUS) ->
  get_module_outline module_name = OutlineOk module_name generative_ai_topics /\
  build_study_schedule module_name days_until_exam hours_per_day weak_topics
    <> ScheduleNotFound module_name /\
  suggest_practice_tasks module_name focus_topics <> TasksNotFound module_name.
Proof.
  intros H. simpl in H. destruct H as [H | []].
  assert (Hl : syllabus_lookup module_name = Some generative_ai_topics).
  { unfold syllabus_lookup. rewrite <- H. reflexivity. }
  unfold get_module_outline, build_study_schedule, suggest_practice_tasks.
  rewrite Hl. cbv zeta. split; [reflexivity | split].
  - destruct (pack_all _ _ _ _ _) as [s d]. unfold render_schedule.
    destruct (4 <? _)%nat; discriminate.
  - destruct (_ =? 1)%nat; discriminate.
Qed.

Lemma known_module_found_witness :
  get_module_outline " Generative AI " = OutlineOk " Generative AI " generative_ai_topics /\
  build_study_schedule " Generative AI " 5 3 "" <> ScheduleNotFound " Generative AI " /\
  suggest_practice_tasks " Generative AI " "" <> TasksNotFound " Generative AI ".
Proof. apply known_module_found. left. reflexivity. Defined.

(* ------------------------------------------------------------------ *)
(** ** The days and entries of a schedule *)

Lemma pack_topic_keys fuel topic days h r s day :
  map fst (fst (fst (pack_topic fuel topic days h r s day))) = map fst s.
Proof.
  revert r s day. induction fuel as [|fuel IH]; intros r s day; simpl; [reflexivity|].
  destruct (qlt 0 r && (day <=? days)%Z); simpl; [|reflexivity].
  rewrite IH. apply sched_append_keys.
Qed.

Lemma pack_all_keys days h items s day :
  map fst (fst (pack_all days h items s day)) = map fst s.
Proof.
  revert s day. induction items as [|[t x] rest IH]; intros s day; cbn [pack_all];
    [reflexivity|].
  pose proof (pack_topic_keys (topic_fuel h x) t days h x s day) as H.
  destruct (pack_topic _ _ _ _ _ _ _) as [[s1 d1] r1]. simpl in H.
  rewrite IH. exact H.
Qed.

Lemma filter_keys_sorted (p : Z * list entry -> bool) (s : schedule_t) :
  StronglySorted Z.lt (map fst s) ->
  StronglySorted Z.lt (map fst (filter p s)) /\ incl (map fst (filter p s)) (map fst s).
Proof.
  induction s as [|[d es] s IH]; simpl; intros H.
  - split; [constructor | intros x []].
  - inversion H as [|? ? Hs Hall]; subst.
    destruct (IH Hs) as [IH1 IH2].
    destruct (p (d, es)); simpl.
    + split.
      * constructor; [exact IH1|]. rewrite Forall_forall in Hall |- *.
        intros y Hy. apply Hall, IH2, Hy.
      * intros y [<- | Hy]; [left; reflexivity | right; apply IH2, Hy].
    + split; [exact IH1|]. intros y Hy. right. apply IH2, Hy.
Qed.

Lemma seq_keys_sorted (a n : nat) : StronglySorted Z.lt (map Z.of_nat (seq a n)).
Proof.
  revert a. induction n as [|n IH]; intros a; simpl; constructor; [apply IH|].
  apply Forall_forall. intros y Hy. apply in_map_iff in Hy as [i [<- Hi]].
  apply in_seq in Hi. lia.
Qed.

(** The days listed by a schedule are distinct, in increasing order, within
    [1 .. days_until_exam], and each carries at least one entry. *)
Theorem build_study_schedule_days (module_name weak_topics : string)
    (days_until_exam : Z) (hours_per_day : Q) (m' : string)
    (per_day : list (Z * list entry)) :
  build_study_schedule module_name days_until_exam hours_per_day weak_topics
    = ScheduleOk m' per_day ->
  StronglySorted Z.lt (map fst per_day) /\
  Forall (fun d => (1 <= d <= days_until_exam)%Z) (map fst per_day) /\
  Forall (fun de => snd de <> []) per_day.
Proof.
  intros H. apply build_study_schedule_ok_inv in H as [items ->].
  set (s := fst (pack_all _ _ _ _ _)).
  assert (Hk : map fst s = map Z.of_nat (seq 1 (Z.to_nat days_until_exam))).
  { unfold s. rewrite pack_all_keys. apply init_schedule_keys. }
  destruct (filter_keys_sorted
              (fun '(_, items) => negb (match items with [] => true | _ => false end)) s)
    as [H1 H2].
  { rewrite Hk. apply seq_keys_sorted. }
  split; [exact H1 | split].
  - apply Forall_forall. intros d Hd. apply H2 in Hd. rewrite Hk in Hd.
    apply in_map_iff in Hd as [i [<- Hi]]. apply in_seq in Hi. lia.
  - apply Forall_forall. intros [d es] Hin. unfold nonempty_days in Hin.
    apply filter_In in Hin as [_ Hne]. destruct es; [discriminate | discriminate].
Qed.

Lemma build_study_schedule_days_witness :
  exists per_day,
    build_study_schedule "Generative AI" 2 3 "rag" = ScheduleOk "Generative AI" per_day /\
    (StronglySorted Z.lt (map fst per_day) /\
     Forall (fun d => (1 <= d <= 2)%Z) (map fst per_day) /\
     Forall (fun de => snd de <> []) per_day).
Proof.
  destruct (build_study_schedule "Generative AI" 2 3 "rag") as [m' per_day | m' |] eqn:E;
    pose proof E as E'; vm_compute in E'; try discriminate E'.
  injection E' as Hm _. subst m'.
  exists per_day. split; [reflexivity|]. exact (build_study_schedule_days _ _ _ _ _ _ E).
Defined.

Lemma round1_nonneg (x : Q) : 0 <= x -> 0 <= round1 x.
Proof.
  intros Hx. unfold round1. cbv zeta.
  assert (Hf : (0 <= Qfloor (x * 10))%Z).
  { change 0%Z with (Qfloor 0). apply Qfloor_resp_le. lra. }
  assert (Hk : forall k : Z, (0 <= k)%Z -> 0 <= Qmake k 10).
  { intros k Hk. unfold Qle. simpl. lia. }
  destruct (qlt _ (1#2)); [apply Hk; lia|].
  destruct (qlt (1#2) _); [apply Hk; lia|].
  destruct (Z.even _); apply Hk; lia.
Qed.

Lemma pack_topic_entries_ok_pos (P : entry -> Prop) fuel topic days h r s day :
  (forall x, 0 < x -> P (topic, round1 (py_min x (h / 2)))) -> entries_ok P s ->
  entries_ok P (fst (fst (pack_topic fuel topic days h r s day))).
Proof.
  revert r s day. induction fuel as [|fuel IH]; intros r s day HP Hs; simpl;
    [exact Hs|].
  destruct (qlt 0 r && (day <=? days)%Z) eqn:G; simpl; [|exact Hs].
  apply andb_true_iff in G as [G _]. apply qlt_spec in G.
  apply IH; [exact HP|]. apply entries_ok_append; auto.
Qed.

Lemma pack_all_entries_ok_items (P : entry -> Prop) days h items s day :
  Forall (fun it => forall x, 0 < x -> P (fst it, round1 (py_min x (h / 2)))) items ->
  entries_ok P s ->
  entries_ok P (fst (pack_all days h items s day)).
Proof.
  revert s day. induction items as [|[t x] rest IH]; intros s day HP Hs;
    cbn [pack_all]; [exact Hs|].
  inversion HP as [|? ? HP1 HP2]; subst.
  pose proof (pack_topic_entries_ok_pos P (topic_fuel h x) t days h x s day
                HP1 Hs) as H.
  destruct (pack_topic _ _ _ _ _ _ _) as [[s1 d1] r1].
  apply IH; assumption.
Qed.

(** With a positive daily budget, every entry of a schedule names a topic of
    the module and carries a non-negative number of hours. *)
Theorem build_study_schedule_entries (module_name weak_topics : string)
    (days_until_exam : Z) (hours_per_day : Q) (m' : string)
    (per_day : list (Z * list entry)) :
  0 < hours_per_day ->
  build_study_schedule module_name days_until_exam hours_per_day weak_topics
    = ScheduleOk m' per_day ->
  forall d es t x, In (d, es) per_day -> In (t, x) es ->
    In t generative_ai_topics /\ 0 <= x.
Proof.
  intros Hh H.
  assert (Hl : exists topics, syllabus_lookup module_name = Some topics /\ topics <> []).
  { unfold build_study_schedule in H.
    destruct (syllabus_lookup module_name) as [[|t0 ts]|]; try discriminate.
    eexists; split; [reflexivity | discriminate]. }
  destruct Hl as [topics [Hl Hne]].
  pose proof (syllabus_lookup_some _ _ Hl) as ->.
  rewrite (build_study_schedule_known _ _ _ _ _ Hl Hne) in H.
  unfold render_schedule in H. destruct (4 <? _)%nat; [|discriminate].
  injection H as _ <-.
  set (P := fun e : entry => In (fst e) generative_ai_topics /\ 0 <= snd e).
  assert (HP : entries_ok P
                 (fst (pack_all days_until_exam hours_per_day
                         (topic_hours generative_ai_topics weak_topics days_until_exam
                            hours_per_day)
                         (init_schedule days_until_exam) 1%Z))).
  { apply pack_all_entries_ok_items; [|apply entries_ok_init].
    apply Forall_forall. intros [t x] Hin y Hy. split.
    - simpl. unfold topic_hours in Hin. apply in_combine_l in Hin. exact Hin.
    - simpl. apply round1_nonneg. unfold py_min.
      destruct (qlt _ _); [apply Qlt_le_weak, Qlt_shift_div_l; lra | lra]. }
  intros d es t x Hd Hx.
  exact (entries_ok_nonempty P _ HP d es (t, x) Hd Hx).
Qed.

Lemma build_study_schedule_entries_witness :
  exists per_day,
    0 < 3 /\
    build_study_schedule "Generative AI" 2 3 "rag" = ScheduleOk "Generative AI" per_day /\
    (forall d es t x, In (d, es) per_day -> In (t, x) es ->
       In t generative_ai_topics /\ 0 <= x).
Proof.
  destruct (build_study_schedule "Generative AI" 2 3 "rag") as [m' per_day | m' |] eqn:E;
    pose proof E as E'; vm_compute in E'; try discriminate E'.
  injection E' as Hm _. subst m'.
  assert (Hh : 0 < 3) by lra.
  exists per_day. split; [exact Hh | split; [reflexivity|]].
  exact (build_study_schedule_entries _ _ _ _ _ _ Hh E).
Defined.



Lemma topic_hours_nonpos topics weak days h :
  inject_Z days * h <= 0 ->
  Forall (fun it => snd it <= 0) (topic_hours topics weak days h).
Proof.
  intros HT. unfold topic_hours, hours_per_topic.
  set (wl := parse_list weak).
  set (W := sum_Z (weights_of wl topics)).
  assert (HW : (0 <= W)%Z).
  { pose proof (sum_weights_ge_length wl topics). unfold W. lia. }
  apply (combine_snd_Forall (fun q => q <= 0)). apply Forall_forall. intros y Hy.
  apply in_map_iff in Hy as [w [<- Hw]].
  unfold weights_of in Hw. apply in_map_iff in Hw as [t [<- _]].
  pose proof (weight_of_ge_1 wl t) as H1.
  assert (Ha : 0 <= inject_Z (weight_of wl t) / inject_Z W).
  { unfold Qdiv. apply Qmult_le_0_compat.
    - change 0 with (inject_Z 0). rewrite <- Zle_Qle. lia.
    - apply Qinv_le_0_compat. change 0 with (inject_Z 0). rewrite <- Zle_Qle. exact HW. }
  set (a := inject_Z (weight_of wl t) / inject_Z W) in *.
  assert (Hm : 0 <= a * (- (inject_Z days * h))) by (apply Qmult_le_0_compat; lra).
  setoid_replace (a * (inject_Z days * h)) with (- (a * (- (inject_Z days * h)))) by ring.
  lra.
Qed.

Lemma pack_all_nonpos days h items s day :
  Forall (fun it => snd it <= 0) items -> fst (pack_all days h items s day) = s.
Proof.
  revert day. induction items as [|[t x] rest IH]; intros day H; cbn [pack_all];
    [reflexivity|].
  inversion H as [|? ? H1 H2]; subst. simpl in H1.
  rewrite pack_topic_guard_false; [apply IH, H2|].
  apply andb_false_iff. left. apply qlt_false. exact H1.
Qed.

Lemma nonempty_days_no_entries s :
  entries_ok (fun _ => False) s -> nonempty_days s = [].
Proof.
  intros H. unfold nonempty_days. apply filter_all_false.
  intros [d [|e es]] Hin; [reflexivity|].
  exfalso. exact (H d (e :: es) e Hin (or_introl eq_refl)).
Qed.

(** A known module with no days left or no hours per day gives the
    "Could not build a useful schedule." outcome. *)
Theorem build_study_schedule_no_time (module_name weak_topics : string)
    (days_until_exam : Z) (hours_per_day : Q) :
  In (strip (lower module_name)) (map fst SYLLABUS) ->
  (days_until_exam <= 0)%Z \/ hours_per_day <= 0 ->
  build_study_schedule module_name days_until_exam hours_per_day weak_topics
    = ScheduleUnbuildable.
Proof.
  intros Hin Hd. simpl in Hin. destruct Hin as [Hin | []].
  assert (Hl : syllabus_lookup module_name = Some generative_ai_topics).
  { unfold syllabus_lookup. rewrite <- Hin. reflexivity. }
  rewrite (build_study_schedule_known _ _ _ _ _ Hl ltac:(discriminate)).
  set (items := topic_hours _ _ _ _).
  set (s := fst (pack_all _ _ _ _ _)).
  assert (Hs : entries_ok (fun _ => False) s).
  { destruct (Z_le_gt_dec days_until_exam 0) as [H0 | H0].
    - assert (Hi : init_schedule days_until_exam = []).
      { unfold init_schedule. replace (Z.to_nat days_until_exam) with 0%nat by lia.
        reflexivity. }
      assert (Hk : map fst s = []).
      { unfold s. rewrite pack_all_keys, Hi. reflexivity. }
      apply map_eq_nil in Hk. rewrite Hk. intros d es e [].
    - destruct Hd as [Hd | Hd]; [lia|].
      assert (HT : inject_Z days_until_exam * hours_per_day <= 0).
      { assert (0 <= inject_Z days_until_exam).
        { change 0 with (inject_Z 0). rewrite <- Zle_Qle. lia. }
        assert (0 <= inject_Z days_until_exam * (- hours_per_day))
          by (apply Qmult_le_0_compat; lra).
        setoid_replace (inject_Z days_until_exam * hours_per_day)
          with (- (inject_Z days_until_exam * (- hours_per_day))) by ring.
        lra. }
      unfold s. rewrite pack_all_nonpos; [apply entries_ok_init|].
      apply topic_hours_nonpos. exact HT. }
  unfold render_schedule, rendered_line_count.
  rewrite (nonempty_days_no_entries _ Hs). reflexivity.
Qed.

Lemma build_study_schedule_no_time_witness :
  build_study_schedule "Generative AI" 0 3 "" = ScheduleUnbuildable /\
  build_study_schedule "Generative AI" 5 0 "rag" = ScheduleUnbuildable.
Proof.
  split; apply build_study_schedule_no_time;
    solve [left; reflexivity | left; lia | right; lra].
Defined.

(* ------------------------------------------------------------------ *)
(** ** Lines of the rendered text *)

Lemma split_lines_aux_noline l cur :
  ~ In newline l -> split_lines_aux l cur = [(rev cur ++ l)%list].
Proof.
  revert cur. induction l as [|c l IH]; intros cur H; simpl.
  - rewrite app_nil_r. reflexivity.
  - destruct (Ascii.eqb c newline) eqn:E.
    + apply Ascii.eqb_eq in E. subst c. exfalso. apply H. left. reflexivity.
    + rewrite IH by (intros H'; apply H; right; exact H'). simpl.
      rewrite <- app_assoc. reflexivity.
Qed.

Lemma split_lines_aux_app l1 l2 cur :
  ~ In newline l1 ->
  split_lines_aux (l1 ++ newline :: l2) cur = (rev cur ++ l1)%list :: split_lines_aux l2 [].
Proof.
  revert cur. induction l1 as [|c l1 IH]; intros cur H; simpl.
  - rewrite ?Ascii.eqb_refl, app_nil_r. reflexivity.
  - destruct (Ascii.eqb c newline) eqn:E.
    + apply Ascii.eqb_eq in E. subst c. exfalso. apply H. left. reflexivity.
    + rewrite IH by (intros H'; apply H; right; exact H'). simpl.
      rewrite <- app_assoc. reflexivity.
Qed.

Lemma split_lines_join (lines : list string) :
  lines <> [] -> Forall (fun l => ~ In newline (list_ascii_of_string l)) lines ->
  split_lines (join_lines lines) = lines.
Proof.
  induction lines as [|l ls IH]; intros Hne H; [contradiction Hne; reflexivity|].
  inversion H as [|? ? Hl Hls]; subst.
  destruct ls as [|l' ls].
  - unfold split_lines. simpl join_lines. rewrite split_lines_aux_noline by exact Hl.
    simpl. rewrite string_of_list_ascii_of_string. reflexivity.
  - change (join_lines (l :: l' :: ls)) with (l ++ String newline (join_lines (l' :: ls))).
    unfold split_lines. rewrite list_ascii_of_string_app.
    simpl (list_ascii_of_string (String _ _)).
    rewrite split_lines_aux_app by exact Hl. cbn [map rev app].
    rewrite string_of_list_ascii_of_string. f_equal.
    apply IH; [discriminate | exact Hls].
Qed.

(** Joining lines with ["\n"] and splitting on ["\n"] gives the lines back
    when none of them contains a newline. *)
Theorem split_join_lines (lines : list string) :
  lines <> [] -> Forall (fun l => ~ In newline (list_ascii_of_string l)) lines ->
  split_lines (join_lines lines) = lines.
Proof. apply split_lines_join. Qed.

Lemma split_join_lines_witness :
  ["Topics for x:"; "- a"; ""] <> [] /\
  Forall (fun l => ~ In newline (list_ascii_of_string l)) ["Topics for x:"; "- a"; ""] /\
  split_lines (join_lines ["Topics for x:"; "- a"; ""]) = ["Topics for x:"; "- a"; ""].
Proof.
  assert (H1 : ["Topics for x:"; "- a"; ""] <> []) by discriminate.
  assert (H2 : Forall (fun l => ~ In newline (list_ascii_of_string l))
                 ["Topics for x:"; "- a"; ""]).
  { repeat constructor; simpl; intros H; repeat (destruct H as [H | H]; [discriminate H|]);
      exact H. }
  split; [exact H1 | split; [exact H2 | exact (split_join_lines _ H1 H2)]].
Defined.

Lemma no_newline_b (s : string) :
  existsb (fun c => Ascii.eqb c newline) (list_ascii_of_string s) = false ->
  ~ In newline (list_ascii_of_string s).
Proof.
  intros H Hin. assert (Hx : existsb (fun c => Ascii.eqb c newline) (list_ascii_of_string s) = true).
  { apply existsb_exists. exists newline. split; [exact Hin | apply Ascii.eqb_refl]. }
  congruence.
Qed.

Lemma no_newline_app (s1 s2 : string) :
  ~ In newline (list_ascii_of_string s1) -> ~ In newline (list_ascii_of_string s2) ->
  ~ In newline (list_ascii_of_string (s1 ++ s2)).
Proof.
  rewrite list_ascii_of_string_app. intros H1 H2 H.
  apply in_app_or in H as [H | H]; auto.
Qed.

Lemma split_lines_single (s : string) :
  ~ In newline (list_ascii_of_string s) -> split_lines s = [s].
Proof.
  intros H. apply (split_lines_join [s]); [discriminate | constructor; [exact H | constructor]].
Qed.

Ltac no_nl := apply no_newline_b; reflexivity.

Lemma not_found_no_newline (module_name : string) :
  ~ In newline (list_ascii_of_string module_name) ->
  ~ In newline (list_ascii_of_string ("No module named '" ++ module_name ++ "' found.")).
Proof. intros H. apply no_newline_app; [no_nl|]. apply no_newline_app; [exact H | no_nl]. Qed.

(** The text of [get_module_outline], split into lines, is the header
    followed by one ["- topic"] line per topic, or the single not-found line,
    when the module name holds no newline. *)
Theorem get_module_outline_text_lines (module_name : string) :
  ~ In newline (list_ascii_of_string module_name) ->
  split_lines (get_module_outline_text module_name) =
  match get_module_outline module_name with
  | OutlineOk m topics => ("Topics for " ++ m ++ ":") :: map (fun t => "- " ++ t) topics
  | OutlineNotFound m => ["No module named '" ++ m ++ "' found."]
  end.
Proof.
  intros Hm. unfold get_module_outline_text, get_module_outline.
  destruct (syllabus_lookup module_name) as [[|t ts]|] eqn:E;
    try (apply split_lines_single, not_found_no_newline, Hm).
  apply syllabus_lookup_some in E. rewrite E.
  apply split_lines_join; [discriminate|]. constructor.
  - apply no_newline_app; [no_nl|]. apply no_newline_app; [exact Hm | no_nl].
  - apply Forall_map, Forall_forall. intros x Hx. simpl in Hx.
    repeat (destruct Hx as [<- | Hx]; [no_nl|]). destruct Hx.
Qed.

Lemma get_module_outline_text_lines_witness :
  ~ In newline (list_ascii_of_string "Generative AI") /\
  split_lines (get_module_outline_text "Generative AI") =
  ("Topics for Generative AI:" :: map (fun t => "- " ++ t) generative_ai_topics).
Proof.
  assert (H : ~ In newline (list_ascii_of_string "Generative AI")) by no_nl.
  split; [exact H | exact (get_module_outline_text_lines _ H)].
Defined.





(* ------------------------------------------------------------------ *)
(** ** The tool log, the runner and the UI *)

Lemma run_tool_log L c : fst (run_tool L c) = (L ++ fst (run_tool [] c))%list.
Proof. destruct c; reflexivity. Qed.

Lemma run_tool_log_length c : List.length (fst (run_tool [] c)) = 1%nat.
Proof. destruct c; reflexivity. Qed.

Lemma run_tools_prefix L calls : run_tools L calls = (L ++ run_tools [] calls)%list.
Proof.
  revert L. induction calls as [|c cs IH]; intros L; simpl; [rewrite app_nil_r; reflexivity|].
  rewrite IH, (run_tool_log L c), (IH (fst (run_tool [] c))). symmetry. apply app_assoc.
Qed.

Lemma run_tools_length L calls :
  List.length (run_tools L calls) = (List.length L + List.length calls)%nat.
Proof.
  revert L. induction calls as [|c cs IH]; intros L; simpl; [lia|].
  rewrite IH, run_tool_log, length_app, run_tool_log_length. lia.
Qed.

(** Tool calls only append to TOOL_LOG, one entry per call, whatever the
    calls return. *)
Theorem run_tools_appends (TOOL_LOG0 : list log_entry) (calls : list tool_call) :
  run_tools TOOL_LOG0 calls = (TOOL_LOG0 ++ run_tools [] calls)%list /\
  List.length (run_tools [] calls) = List.length calls.
Proof. split; [apply run_tools_prefix | apply run_tools_length]. Qed.






(** [load_agent] returns the cached agent when there is one and builds one
    when the key is set; otherwise it raises the UI's own message, so the
    error of [build_agent] never reaches the UI. *)
Theorem load_agent_outcome (llm : behaviour) (env_key : option string)
    (cache : option agent_t) :
  (exists a, load_agent llm env_key cache = (Some a, Ok a) /\
             match cache with
             | Some a0 => a = a0
             | None => key_missing env_key = false /\ invoke a = llm
             end) \/
  (cache = None /\ key_missing env_key = true /\
   load_agent llm env_key cache = (None, Raise (RuntimeError ui_key_message))).
Proof.
  unfold load_agent. destruct cache as [a0|].
  - left. exists a0. split; reflexivity.
  - destruct (key_missing env_key) eqn:K.
    + right. repeat split.
    + left. unfold build_agent. rewrite K. eexists. split; [reflexivity|].
      split; reflexivity.
Qed.

(** With no cached agent and the key unset or empty, the UI returns the
    error text and an empty log box, and leaves TOOL_LOG and the cache as
    they were. *)
Theorem study_coach_interface_missing_key (llm : behaviour) (env_key : option string)
    (st : ui_state) (query : string) :
  agent st = None -> key_missing env_key = true ->
  study_coach_interface llm env_key st query =
  (st, (error_prefix ++ ui_key_message, LogPlain "")).
Proof.
  intros Ha Hk. destruct st as [a L]. simpl in Ha. subst a.
  unfold study_coach_interface. simpl. rewrite Hk. reflexivity.
Qed.

Lemma study_coach_interface_missing_key_witness :
  let st := mk_ui_state None
              [mk_log_entry "get_module_outline" [("module_name", ArgStr "old")]] in
  agent st = None /\ key_missing (Some "") = true /\
  study_coach_interface (fun _ => ([], InvokeReturns ["hi"])) (Some "") st "plan" =
  (st, (error_prefix ++ ui_key_message, LogPlain "")).
Proof.
  intros st.
  assert (H1 : agent st = None) by reflexivity.
  assert (H2 : key_missing (Some "") = true) by reflexivity.
  split; [exact H1 | split; [exact H2|]].
  exact (study_coach_interface_missing_key _ _ _ _ H1 H2).
Defined.

(** When the agent raises, the UI shows the error text and an empty log
    box, while TOOL_LOG keeps the calls the agent made before raising. *)
Theorem study_coach_interface_agent_error (llm : behaviour) (env_key : option string)
    (st : ui_state) (query : string) (a : agent_t) (e : exn) :
  snd (load_agent llm env_key (agent st)) = Ok a ->
  snd (invoke a query) = InvokeRaises e ->
  study_coach_interface llm env_key st query =
  (mk_ui_state (fst (load_agent llm env_key (agent st))) (run_tools [] (fst (invoke a query))),
   (error_prefix ++ str_exn e, LogPlain "")).
Proof.
  intros Hl Hi. unfold study_coach_interface.
  destruct (load_agent llm env_key (agent st)) as [a1 r] eqn:E. simpl in Hl. subst r.
  unfold run_study_coach. destruct (invoke a query) as [calls outcome]. simpl in Hi.
  subst outcome. reflexivity.
Qed.

Lemma study_coach_interface_agent_error_witness :
  let llm : behaviour :=
    fun _ => ([CallBuildStudySchedule "Generative AI" 5 3 "rag"],
              InvokeRaises (AgentError "rate limit")) in
  let a := mk_agent (mk_agent_config "llama-3.1-8b-instant" (3#10)
                       ["get_module_outline"; "build_study_schedule";
                        "suggest_practice_tasks"]) llm in
  let st := mk_ui_state None [] in
  snd (load_agent llm (Some "k") (agent st)) = Ok a /\
  snd (invoke a "plan") = InvokeRaises (AgentError "rate limit") /\
  study_coach_interface llm (Some "k") st "plan" =
  (mk_ui_state (fst (load_agent llm (Some "k") (agent st)))
     (run_tools [] (fst (invoke a "plan"))),
   (error_prefix ++ str_exn (AgentError "rate limit"), LogPlain "")).
Proof.
  intros llm a st.
  assert (H1 : snd (load_agent llm (Some "k") (agent st)) = Ok a) by reflexivity.
  assert (H2 : snd (invoke a "plan") = InvokeRaises (AgentError "rate limit"))
    by reflexivity.
  split; [exact H1 | split; [exact H2|]].
  exact (study_coach_interface_agent_error _ _ _ _ _ _ H1 H2).
Defined.

(** Once an agent is cached, the UI no longer depends on the environment
    or on the LLM passed to [build_agent]. *)
Theorem study_coach_interface_cached (llm1 llm2 : behaviour)
    (env1 env2 : option string) (st : ui_state) (query : string) (a : agent_t) :
  agent st = Some a ->
  study_coach_interface llm1 env1 st query = study_coach_interface llm2 env2 st query.
Proof. intros H. unfold study_coach_interface, load_agent. rewrite H. reflexivity. Qed.

Lemma study_coach_interface_cached_witness :
  let a := mk_agent (mk_agent_config "llama-3.1-8b-instant" (3#10) [])
             (fun _ => ([CallGetModuleOutline "RAG"], InvokeReturns ["ok"])) in
  agent (mk_ui_state (Some a) []) = Some a /\
  study_coach_interface (fun _ => ([], InvokeReturns [])) None (mk_ui_state (Some a) []) "q" =
  study_coach_interface (fun _ => ([], InvokeReturns ["x"])) (Some "key")
    (mk_ui_state (Some a) []) "q".
Proof.
  intros a. assert (H : agent (mk_ui_state (Some a) []) = Some a) by reflexivity.
  split; [exact H | exact (study_coach_interface_cached _ _ _ _ _ _ _ H)].
Defined.


